(** * Moving-average outlier detector (moving_average.py)

    A shallow embedding of the class [outliers] of
    [src/moving_average/moving_average.py] and of the part of pandas and
    [datetime] it calls, followed by the properties of the detector.

    Conventions of the model.
    - A Python [float] is an idealised real number; the one special value
      the program meets, pandas' missing value [NaN], is [None] in
      [Float.float := option R].  Arithmetic propagates [NaN] and every
      comparison with [NaN] is [False], as in IEEE 754.
    - A Python [int] is a [Z]: [window_size] may be zero or negative.
    - A parsed date (a pandas [Timestamp] or a [datetime]) is a [Z], the
      position of the instant on the time line; the two string parsers
      ([pd.to_datetime] on one entry, [datetime.strptime]) are parameters
      of the model.
    - The caller's [DataFrame] is a mutable object: the constructor runs in
      a state-and-exception monad whose state is that object.
    - The current matplotlib figure is the list of the calls made on it. *)

From Stdlib Require Import Reals Lra Lia ZArith Ascii String List Bool Arith.
Import ListNotations.

(** ** Python exceptions and results *)

Inductive exn : Type :=
| ValueError (msg : string)
| TypeError (msg : string).

Inductive result (A : Type) : Type :=
| Ok (a : A)
| Raise (e : exn).

Arguments Ok {A} a.
Arguments Raise {A} e.

Definition rbind {A B} (r : result A) (k : A -> result B) : result B :=
  match r with
  | Ok a => k a
  | Raise e => Raise e
  end.

Fixpoint rmap {A B} (f : A -> result B) (l : list A) : result (list B) :=
  match l with
  | [] => Ok []
  | a :: l' => rbind (f a) (fun b => rbind (rmap f l') (fun bs => Ok (b :: bs)))
  end.

(** ** Floats with a missing value *)

Module Float.

Definition float : Type := option R.

Definition NaN : float := None.

Definition lift2 (op : R -> R -> R) (a b : float) : float :=
  match a, b with
  | Some x, Some y => Some (op x y)
  | _, _ => NaN
  end.

Definition add : float -> float -> float := lift2 Rplus.
Definition sub : float -> float -> float := lift2 Rminus.
Definition mul : float -> float -> float := lift2 Rmult.

Definition Rltb (x y : R) : bool := if Rlt_dec x y then true else false.

(** [a < b]: [False] as soon as one side is [NaN]. *)
Definition lt (a b : float) : bool :=
  match a, b with
  | Some x, Some y => Rltb x y
  | _, _ => false
  end.

(** [a > b] *)
Definition gt (a b : float) : bool := lt b a.

Definition is_defined (a : float) : bool :=
  match a with Some _ => true | None => false end.

End Float.

Import Float.

(** ** The part of pandas the detector uses *)

Module Pandas.

(** An entry of the date column: a string before [pd.to_datetime], a
    [Timestamp] after it. *)
Inductive cell : Type :=
| Str (s : string)
| Timestamp (t : Z).

(** A two-column table: its column labels and its rows. *)
Record DataFrame : Type := mkDataFrame {
  columns : string * string;
  rows : list (cell * R)
}.

(** [df.empty] *)
Definition empty (df : DataFrame) : bool :=
  match rows df with [] => true | _ :: _ => false end.

(** [df.columns = labels] *)
Definition set_columns (labels : string * string) (df : DataFrame) : DataFrame :=
  {| columns := labels; rows := rows df |}.

(** [df[first label]] and [df[second label]] *)
Definition column0 (df : DataFrame) : list cell := map fst (rows df).
Definition column1 (df : DataFrame) : list R := map snd (rows df).

(** [df[first label] = col] for a column [col] of the frame's length. *)
Definition set_column0 (col : list cell) (df : DataFrame) : DataFrame :=
  {| columns := columns df; rows := combine col (column1 df) |}.

Section ToDatetime.

(** [pd.to_datetime] on one string: [None] when it does not parse. *)
Variable parse_timestamp : string -> option Z.

Definition to_datetime1 (c : cell) : result Z :=
  match c with
  | Timestamp t => Ok t
  | Str s =>
      match parse_timestamp s with
      | Some t => Ok t
      | None => Raise (ValueError "Unknown datetime string format")
      end
  end.

(** [pd.to_datetime(col)]: every entry converted, or the first failure. *)
Definition to_datetime (col : list cell) : result (list Z) :=
  rmap to_datetime1 col.

End ToDatetime.

(** The entries of a datetime column; ordering a string against a
    [Timestamp] is a [TypeError]. *)
Definition timestamps (col : list cell) : result (list Z) :=
  rmap (fun c => match c with
                 | Timestamp t => Ok t
                 | Str _ => Raise (TypeError "'<' not supported between 'Timestamp' and 'str'")
                 end) col.

(** *** Rolling windows

    [s.rolling(window=n)] has [min_periods = n]: the statistic at index
    [i] is missing unless the trailing window [i-n+1 .. i] lies inside
    the series.  [mean] needs at least one observation; [std] is the
    sample standard deviation ([ddof = 1]) and needs more than one. *)

Definition rolling (window : Z) : result nat :=
  if (window <? 0)%Z
  then Raise (ValueError "window must be an integer 0 or greater")
  else Ok (Z.to_nat window).

Definition sum (w : list R) : R := fold_right Rplus 0%R w.

Definition nobs (w : list R) : R := IZR (Z.of_nat (length w)).

Definition mean_of (w : list R) : float :=
  match w with
  | [] => NaN
  | _ :: _ => Some (sum w / nobs w)%R
  end.

Definition ssqdm (w : list R) : R :=
  let m := (sum w / nobs w)%R in
  sum (map (fun x => ((x - m) * (x - m))%R) w).

Definition std_of (w : list R) : float :=
  if (length w <=? 1)%nat
  then NaN
  else Some (sqrt (ssqdm w / (nobs w - 1)))%R.

(** The [n] values ending at index [i] (fewer when the series is short). *)
Definition trailing (n i : nat) (xs : list R) : list R :=
  firstn n (skipn (S i - n) xs).

Definition rolling_apply (stat : list R -> float) (n : nat) (xs : list R)
  : list float :=
  map (fun i => if (n <=? S i)%nat then stat (trailing n i xs) else NaN)
      (seq 0 (length xs)).

Definition rolling_mean : nat -> list R -> list float := rolling_apply mean_of.
Definition rolling_std : nat -> list R -> list float := rolling_apply std_of.

(** [scalar * series], [series + series], [series - series] *)
Definition scale (k : R) (s : list float) : list float :=
  map (fun x => mul (Some k) x) s.

Fixpoint zip_with {A B C} (f : A -> B -> C) (l : list A) (l' : list B) : list C :=
  match l, l' with
  | a :: t, b :: t' => f a b :: zip_with f t t'
  | _, _ => []
  end.

Definition series_add : list float -> list float -> list float := zip_with add.
Definition series_sub : list float -> list float -> list float := zip_with sub.

End Pandas.

Import Pandas.

(** ** Python built-ins *)

Module Py.

(** Truth value of an optional string argument: [None] and [''] are false. *)
Definition truthy (o : option string) : bool :=
  match o with
  | None => false
  | Some s => negb (String.eqb s EmptyString)
  end.

(** [a and b] *)
Definition and_ (a b : option string) : option string :=
  if truthy a then b else a.

Definition is_not_None {A} (o : option A) : bool :=
  match o with None => false | Some _ => true end.

Definition max (l : list Z) : result Z :=
  match l with
  | [] => Raise (ValueError "max() arg is an empty sequence")
  | x :: l' => Ok (fold_left Z.max l' x)
  end.

Definition min (l : list Z) : result Z :=
  match l with
  | [] => Raise (ValueError "min() arg is an empty sequence")
  | x :: l' => Ok (fold_left Z.min l' x)
  end.

Definition len {A} (l : list A) : Z := Z.of_nat (length l).

(** [zip] of four sequences, as long as the shortest. *)
Fixpoint zip4 {A B C D} (la : list A) (lb : list B) (lc : list C) (ld : list D)
  : list (A * B * C * D) :=
  match la, lb, lc, ld with
  | a :: ta, b :: tb, c :: tc, d :: td => (a, b, c, d) :: zip4 ta tb tc td
  | _, _, _, _ => []
  end.

End Py.

(** ** The constructor's monad: the caller's table as state, exceptions *)

Module M.

Definition M (A : Type) : Type := DataFrame -> result A * DataFrame.

Definition ret {A} (a : A) : M A := fun df => (Ok a, df).

Definition bind {A B} (m : M A) (k : A -> M B) : M B :=
  fun df =>
    match m df with
    | (Ok a, df') => k a df'
    | (Raise e, df') => (Raise e, df')
    end.

Definition raise {A} (e : exn) : M A := fun df => (Raise e, df).

(** A pure computation that may raise. *)
Definition lift {A} (r : result A) : M A := fun df => (r, df).

(** Read an attribute of the table; update the table in place. *)
Definition read {A} (f : DataFrame -> A) : M A := fun df => (Ok (f df), df).
Definition update (f : DataFrame -> DataFrame) : M unit := fun df => (Ok tt, f df).

End M.

Import M.

Notation "x <- m ;; k" := (bind m (fun x => k))
  (at level 61, m at next level, right associativity).
Notation "m ;; k" := (bind m (fun _ => k))
  (at level 61, right associativity).

(** ** The part of matplotlib.pyplot the detector uses

    The current figure is the list of the calls made on it so far, oldest
    first; a call that raises leaves the earlier ones in place. *)

Module Pyplot.

(** What is handed to [plt.plot] as abscissas or ordinates. *)
Inductive series : Type :=
| Dates (l : list Z)
| Floats (l : list float).

(** A keyword argument of [plt.plot]. *)
Inductive kwarg : Type :=
| KwStr (key value : string)
| KwFloat (key : string) (value : R).

Inductive call : Type :=
| Plot (x y : series) (kwargs : list kwarg)
| Legend (labels : list string) (loc : string)
| Show.

Definition Fig (A : Type) : Type := list call -> result A * list call.

Definition ret {A} (a : A) : Fig A := fun fig => (Ok a, fig).

Definition bind {A B} (m : Fig A) (k : A -> Fig B) : Fig B :=
  fun fig =>
    match m fig with
    | (Ok a, fig') => k a fig'
    | (Raise e, fig') => (Raise e, fig')
    end.

(** A computation that draws nothing but may raise. *)
Definition lift {A} (r : result A) : Fig A := fun fig => (r, fig).

Definition emit (c : call) : Fig unit := fun fig => (Ok tt, fig ++ [c]).

Definition plot (x y : series) (kwargs : list kwarg) : Fig unit := emit (Plot x y kwargs).
Definition legend (labels : list string) (loc : string) : Fig unit := emit (Legend labels loc).
Definition show : Fig unit := emit Show.

End Pyplot.

Declare Scope plot_scope.
Delimit Scope plot_scope with plot.
Notation "x <- m ;; k" := (Pyplot.bind m (fun x => k))
  (at level 61, m at next level, right associativity) : plot_scope.
Notation "m ;; k" := (Pyplot.bind m (fun _ => k))
  (at level 61, right associativity) : plot_scope.

(** ** class outliers *)

Module outliers.

(** The attributes set by [__init__]. *)
Record t : Type := mk {
  start : Z;
  end_ : Z;
  data : list R;
  date : list Z;
  sigma : R;
  N : Z
}.

(** A row of the frame built by [find_outliers], under the labels
    ['Date'], ['Abnormal_values'], ['Lower Bound'], ['Upper Bound']. *)
Record OutlierRecord : Type := mkRecord {
  Date : Z;
  Abnormal_values : R;
  Lower_Bound : float;
  Upper_Bound : float
}.

(** What [find_outliers] returns: the empty list, or a frame. *)
Inductive found : Type :=
| EmptyList
| Frame (recs : list OutlierRecord).

Definition records (f : found) : list OutlierRecord :=
  match f with
  | EmptyList => []
  | Frame recs => recs
  end.

(** The second component of the pair [get_outliers] returns. *)
Inductive payload : Type :=
| Message (s : string)
| Table (recs : list OutlierRecord).

Section Init.

(** [pd.to_datetime] on one string, and
    [datetime.strptime(s, fmt)]: [None] when the string does not parse. *)
Variable parse_timestamp : string -> option Z.
Variable strptime_opt : string -> string -> option Z.

(** [datetime.strptime(arg, fmt)] on an argument that may be [None]. *)
Definition strptime (arg : option string) (fmt : string) : result Z :=
  match arg with
  | None => Raise (TypeError "strptime() argument 1 must be str, not None")
  | Some s =>
      match strptime_opt s fmt with
      | Some t => Ok t
      | None => Raise (ValueError "time data does not match format")
      end
  end.

(** [min(data_frame['Date'])] and [max(data_frame['Date'])] *)
Definition min_Date : M Z :=
  col <- read column0 ;; ts <- lift (timestamps col) ;; lift (Py.min ts).
Definition max_Date : M Z :=
  col <- read column0 ;; ts <- lift (timestamps col) ;; lift (Py.max ts).

(** Lines 52-63: [self.start] and [self.end]. *)
Definition resolve_range (start_date end_date : option string) : M (Z * Z) :=
  if Py.is_not_None (Py.and_ start_date end_date) then
    s <- lift (strptime start_date "%Y-%m-%d") ;;
    e <- lift (strptime end_date "%Y-%m-%d") ;;
    ret (s, e)
  else if Py.is_not_None start_date then
    s <- lift (strptime start_date "%Y-%m-%d") ;;
    e <- max_Date ;;
    ret (s, e)
  else if Py.is_not_None end_date then
    e <- lift (strptime end_date "%Y-%m-%d") ;;
    s <- min_Date ;;
    ret (s, e)
  else
    s <- min_Date ;;
    e <- max_Date ;;
    ret (s, e).

Definition __init__ (window_size : Z) (sigma : R)
           (start_date end_date : option string) : M t :=
  is_empty <- read empty ;;
  if is_empty then
    raise (ValueError "Error: input data frame is empty")
  else
    update (set_columns ("Date", "Value")%string) ;;
    col <- read column0 ;;
    ts <- lift (to_datetime parse_timestamp col) ;;
    update (set_column0 (map Timestamp ts)) ;;
    se <- resolve_range start_date end_date ;;
    data <- read column1 ;;
    col' <- read column0 ;;
    date <- lift (timestamps col') ;;
    if (window_size >? Py.len data)%Z then
      raise (ValueError "Error: window_size is larger than input data")
    else
      ret {| start := fst se; end_ := snd se; data := data; date := date;
             sigma := sigma; N := window_size |}.

End Init.

(** Lines 97-101: the list comprehension. *)
Definition comprehension (date : list Z) (data : list R)
           (upper_bound lower_bound : list float) : list OutlierRecord :=
  flat_map
    (fun '(date, value, upper, lower) =>
       if lt (Some value) lower || gt (Some value) upper
       then [mkRecord date value lower upper]
       else [])
    (Py.zip4 date data upper_bound lower_bound).

Definition find_outliers (self : t) : result found :=
  rbind (rolling (N self)) (fun n =>
  let avg := rolling_mean n (data self) in
  rbind (rolling (N self)) (fun n' =>
  let std := rolling_std n' (data self) in
  let upper_bound := series_add avg (scale (sigma self) std) in
  let lower_bound := series_sub avg (scale (sigma self) std) in
  let outliers := comprehension (date self) (data self) upper_bound lower_bound in
  if (Py.len outliers =? 0)%Z then Ok EmptyList else Ok (Frame outliers))).

Definition len (f : found) : Z := Py.len (records f).

(** [outliers[(outliers['Date'] >= start) & (outliers['Date'] <= end)]] *)
Definition in_range (lo hi : Z) (r : OutlierRecord) : bool :=
  (Date r >=? lo)%Z && (Date r <=? hi)%Z.

Definition get_outliers (self : t) : result (string * payload) :=
  rbind (find_outliers self) (fun outliers =>
  if (len outliers =? 0)%Z then
    Ok ("Sucess"%string, Message "No anomalies found")
  else
    Ok ("Failure"%string, Table (filter (in_range (start self) (end_ self)) (records outliers)))).

(** [payload['Date']] and [payload['Abnormal_values']]: a column of the
    frame, or a [TypeError] when the payload is the message string. *)
Definition payload_Date (p : payload) : result (list Z) :=
  match p with
  | Message _ => Raise (TypeError "string indices must be integers")
  | Table recs => Ok (map Date recs)
  end.

Definition payload_Abnormal_values (p : payload) : result (list R) :=
  match p with
  | Message _ => Raise (TypeError "string indices must be integers")
  | Table recs => Ok (map Abnormal_values recs)
  end.

Definition plot_outliers (self : t) : Pyplot.Fig unit :=
  (Pyplot.plot (Pyplot.Dates (date self)) (Pyplot.Floats (map Some (data self))) [] ;;
   n <- Pyplot.lift (rolling (N self)) ;;
   Pyplot.plot (Pyplot.Dates (date self)) (Pyplot.Floats (rolling_mean n (data self))) [] ;;
   r <- Pyplot.lift (get_outliers self) ;;
   x <- Pyplot.lift (payload_Date (snd r)) ;;
   r' <- Pyplot.lift (get_outliers self) ;;
   y <- Pyplot.lift (payload_Abnormal_values (snd r')) ;;
   Pyplot.plot (Pyplot.Dates x) (Pyplot.Floats (map Some y))
               [Pyplot.KwStr "color" "orange"; Pyplot.KwStr "linestyle" "none";
                Pyplot.KwStr "marker" "o"; Pyplot.KwFloat "alpha" (1 / 2)] ;;
   Pyplot.legend ["Actual Data"; "Moving average"; "Outliers"]%string "upper left" ;;
   Pyplot.show)%plot.

End outliers.

Import outliers.

(** ** Vocabulary of the specification *)

Module Spec.

(** The rolling statistics at one index, in the specification's words:
    defined from index [n - 1] on, over the trailing [n] values. *)
Definition mean_at (n : nat) (xs : list R) (i : nat) : float :=
  nth i (rolling_mean n xs) NaN.

Definition std_at (n : nat) (xs : list R) (i : nat) : float :=
  nth i (rolling_std n xs) NaN.

(** Lines 92-93 of [find_outliers], as functions of the detector. *)
Definition upper_bound (self : t) : list float :=
  let n := Z.to_nat (N self) in
  series_add (rolling_mean n (data self)) (scale (sigma self) (rolling_std n (data self))).

Definition lower_bound (self : t) : list float :=
  let n := Z.to_nat (N self) in
  series_sub (rolling_mean n (data self)) (scale (sigma self) (rolling_std n (data self))).

(** An index has a defined bound when both ends of its band are numbers. *)
Definition bound_defined (self : t) (i : nat) : bool :=
  is_defined (nth i (lower_bound self) NaN) && is_defined (nth i (upper_bound self) NaN).

Definition defined_bounds (self : t) : nat :=
  List.length (filter (bound_defined self) (seq 0 (List.length (data self)))).

(** The classification of one index: the record it contributes, if any. *)
Definition classify (self : t) (i : nat) : list OutlierRecord :=
  match nth_error (date self) i, nth_error (data self) i,
        mean_at (Z.to_nat (N self)) (data self) i,
        std_at (Z.to_nat (N self)) (data self) i with
  | Some d, Some v, Some m, Some s =>
      let lower := (m - sigma self * s)%R in
      let upper := (m + sigma self * s)%R in
      if Rltb v lower || Rltb upper v
      then [mkRecord d v (Some lower) (Some upper)]
      else []
  | _, _, _, _ => []
  end.

(** The outliers of a detector: every index classified, in series order. *)
Definition outliers_of (self : t) : list OutlierRecord :=
  flat_map (classify self) (seq 0 (List.length (data self))).

(** The reading of lines 97-101 in which the two bound series reach the
    filter under each other's name. *)
Definition comprehension_swapped (date : list Z) (data : list R)
           (upper_bound lower_bound : list float) : list OutlierRecord :=
  flat_map
    (fun '(date, value, lower, upper) =>
       if lt (Some value) lower || gt (Some value) upper
       then [mkRecord date value lower upper]
       else [])
    (Py.zip4 date data upper_bound lower_bound).

Definition find_outliers_swapped (self : t) : result found :=
  rbind (rolling (N self)) (fun _ =>
  let outliers :=
    comprehension_swapped (date self) (data self) (upper_bound self) (lower_bound self) in
  if (Py.len outliers =? 0)%Z then Ok EmptyList else Ok (Frame outliers)).

(** The caller's table after lines 49-50, [ts] being the converted dates. *)
Definition coerced (df : DataFrame) (ts : list Z) : DataFrame :=
  {| columns := ("Date", "Value")%string;
     rows := combine (map Timestamp ts) (column1 df) |}.

(** [m] is the largest (smallest) date of a series. *)
Definition is_max (m : Z) (l : list Z) : Prop :=
  In m l /\ Forall (fun x => (x <= m)%Z) l.

Definition is_min (m : Z) (l : list Z) : Prop :=
  In m l /\ Forall (fun x => (m <= x)%Z) l.

(** A date argument the constructor can use: absent, or accepted by
    [strptime] under the format ['%Y-%m-%d']. *)
Definition date_ok (strptime_opt : string -> string -> option Z)
           (arg : option string) : bool :=
  match arg with
  | None => true
  | Some s => Py.is_not_None (strptime_opt s "%Y-%m-%d"%string)
  end.

End Spec.

Import Spec.

(** ** Sample inputs *)

Module Sample.

Definition digit (c : Ascii.ascii) : option Z :=
  let n := Ascii.nat_of_ascii c in
  if ((48 <=? n) && (n <=? 57))%nat then Some (Z.of_nat (n - 48)) else None.

Fixpoint number (acc : Z) (cs : list Ascii.ascii) : option Z :=
  match cs with
  | [] => Some acc
  | c :: cs' =>
      match digit c with
      | Some d => number (10 * acc + d)%Z cs'
      | None => None
      end
  end.

(** Calendar dates written [YYYY-MM-DD], numbered so that the order of the
    numbers is the order of the dates. *)
Definition ymd (s : string) : option Z :=
  match list_ascii_of_string s with
  | [y1; y2; y3; y4; sep1; m1; m2; sep2; d1; d2] =>
      if (Ascii.eqb sep1 "-" && Ascii.eqb sep2 "-")%char then
        match number 0 [y1; y2; y3; y4], number 0 [m1; m2], number 0 [d1; d2] with
        | Some y, Some m, Some d =>
            if ((1 <=? m) && (m <=? 12) && (1 <=? d) && (d <=? 31))%Z
            then Some (y * 10000 + m * 100 + d)%Z
            else None
        | _, _, _ => None
        end
      else None
  | _ => None
  end.

Definition parse_timestamp : string -> option Z := ymd.

Definition strptime_opt (s fmt : string) : option Z :=
  if String.eqb fmt "%Y-%m-%d" then ymd s else None.

(** Three days of January 2020; the caller's own column labels. *)
Definition january (a b c : R) : DataFrame :=
  {| columns := ("day", "amount")%string;
     rows := [(Str "2020-01-01", a); (Str "2020-01-02", b); (Str "2020-01-03", c)] |}.

Definition january_coerced (a b c : R) : DataFrame :=
  {| columns := ("Date", "Value")%string;
     rows := [(Timestamp 20200101, a); (Timestamp 20200102, b); (Timestamp 20200103, c)] |}.

Definition detector (a b c : R) (window : Z) (sg : R) (lo hi : Z) : t :=
  {| start := lo; end_ := hi; data := [a; b; c];
     date := [20200101; 20200102; 20200103]%Z; sigma := sg; N := window |}.

Definition no_rows : DataFrame :=
  {| columns := ("day", "amount")%string; rows := [] |}.

End Sample.

(** ** Further vocabulary *)

Module More.

(** The two curves that precede the markers in a complete figure. *)
Definition curves (self : t) : list Pyplot.call :=
  [Pyplot.Plot (Pyplot.Dates (date self)) (Pyplot.Floats (map Some (data self))) [];
   Pyplot.Plot (Pyplot.Dates (date self))
               (Pyplot.Floats (rolling_mean (Z.to_nat (N self)) (data self))) []].

Definition markers (recs : list OutlierRecord) : Pyplot.call :=
  Pyplot.Plot (Pyplot.Dates (map Date recs))
              (Pyplot.Floats (map Some (map Abnormal_values recs)))
              [Pyplot.KwStr "color" "orange"; Pyplot.KwStr "linestyle" "none";
               Pyplot.KwStr "marker" "o"; Pyplot.KwFloat "alpha" (1 / 2)].

End More.

Import More.

(** * Properties *)

(** ** Lists, results and comparisons *)

Lemma flat_map_nil {T U : Type} (l : list T) : flat_map (fun _ : T => @nil U) l = [].
Proof. induction l; simpl; auto. Qed.

Lemma flat_map_seq_S {U : Type} (f : nat -> list U) (k : nat) :
  flat_map f (seq 1 k) = flat_map (fun i => f (S i)) (seq 0 k).
Proof.
  rewrite <- seq_shift. induction (seq 0 k) as [|i l IH]; simpl; auto.
  now rewrite IH.
Qed.

Section ListFacts.

Context {A B C D E : Type}.

Lemma rmap_length (f : A -> result B) (l : list A) (l' : list B) :
  rmap f l = Ok l' -> List.length l' = List.length l.
Proof.
  revert l'; induction l as [|a l IH]; simpl; intros l' H.
  - now inversion H.
  - destruct (f a) as [b|e]; simpl in H; [|discriminate].
    destruct (rmap f l) as [bs|e]; simpl in H; [|discriminate].
    inversion H; subst; simpl. now rewrite (IH bs).
Qed.

Lemma map_fst_combine (l : list A) (l' : list B) :
  List.length l = List.length l' -> map fst (combine l l') = l.
Proof.
  revert l'; induction l as [|a l IH]; intros [|b l'] H; simpl in *;
    try discriminate; trivial.
  f_equal. apply IH. lia.
Qed.

Lemma map_snd_combine (l : list A) (l' : list B) :
  List.length l = List.length l' -> map snd (combine l l') = l'.
Proof.
  revert l'; induction l as [|a l IH]; intros [|b l'] H; simpl in *;
    try discriminate; trivial.
  f_equal. apply IH. lia.
Qed.

Lemma flat_map_length_le (f g : A -> list B) (l : list A) :
  (forall a, (List.length (f a) <= List.length (g a))%nat) ->
  (List.length (flat_map f l) <= List.length (flat_map g l))%nat.
Proof.
  intros H. induction l as [|a l IH]; simpl; auto.
  rewrite !length_app. specialize (H a). lia.
Qed.

Lemma nth_error_zip_with (f : A -> B -> C) (l : list A) (l' : list B) (i : nat) :
  nth_error (zip_with f l l') i =
  match nth_error l i, nth_error l' i with
  | Some a, Some b => Some (f a b)
  | _, _ => None
  end.
Proof.
  revert l' i; induction l as [|a l IH]; intros [|b l'] [|i]; simpl; auto.
  destruct (nth_error l i); reflexivity.
Qed.

(** A comprehension over [zip] visits the indices of the series in order. *)
Lemma flat_map_zip4 (g : A * B * C * D -> list E)
      (la : list A) (lb : list B) (lc : list C) (ld : list D) :
  flat_map g (Py.zip4 la lb lc ld) =
  flat_map (fun i =>
              match nth_error la i, nth_error lb i, nth_error lc i, nth_error ld i with
              | Some a, Some b, Some c, Some d => g (a, b, c, d)
              | _, _, _, _ => []
              end)
           (seq 0 (List.length lb)).
Proof.
  revert la lc ld; induction lb as [|b lb IH]; intros la lc ld.
  - destruct la; reflexivity.
  - change (seq 0 (List.length (b :: lb))) with (0%nat :: seq 1 (List.length lb)).
    cbn [flat_map]. rewrite flat_map_seq_S.
    destruct la as [|a la].
    { simpl. symmetry.
      erewrite flat_map_ext; [apply flat_map_nil|]. intros i; now destruct i. }
    destruct lc as [|c lc].
    { simpl. symmetry.
      erewrite flat_map_ext; [apply flat_map_nil|]. intros i; simpl.
      destruct (nth_error la i), (nth_error lb i); reflexivity. }
    destruct ld as [|d ld].
    { simpl. symmetry.
      erewrite flat_map_ext; [apply flat_map_nil|]. intros i; simpl.
      destruct (nth_error la i), (nth_error lb i), (nth_error lc i); reflexivity. }
    simpl. f_equal. apply IH.
Qed.

End ListFacts.

Lemma Rltb_true (x y : R) : Rltb x y = true <-> (x < y)%R.
Proof. unfold Rltb. destruct (Rlt_dec x y); split; intros; congruence. Qed.

Lemma Rltb_false (x y : R) : Rltb x y = false <-> (y <= x)%R.
Proof.
  unfold Rltb. destruct (Rlt_dec x y); split; intros; try congruence; lra.
Qed.

(** ** Rolling statistics *)

Lemma rolling_apply_length (stat : list R -> float) (n : nat) (xs : list R) :
  List.length (rolling_apply stat n xs) = List.length xs.
Proof. unfold rolling_apply. now rewrite length_map, length_seq. Qed.

Lemma nth_error_rolling_apply (stat : list R -> float) (n : nat) (xs : list R) (i : nat) :
  (i < List.length xs)%nat ->
  nth_error (rolling_apply stat n xs) i =
  Some (if (n <=? S i)%nat then stat (trailing n i xs) else NaN).
Proof.
  intros Hi. unfold rolling_apply.
  rewrite nth_error_map, nth_error_seq.
  destruct (Nat.ltb_spec i (List.length xs)); [reflexivity | lia].
Qed.

Lemma nth_rolling_apply (stat : list R -> float) (n : nat) (xs : list R) (i : nat) :
  nth i (rolling_apply stat n xs) NaN =
  if (i <? List.length xs)%nat
  then (if (n <=? S i)%nat then stat (trailing n i xs) else NaN)
  else NaN.
Proof.
  destruct (Nat.ltb_spec i (List.length xs)) as [Hi|Hi].
  - apply nth_error_nth. now apply nth_error_rolling_apply.
  - apply nth_overflow. now rewrite rolling_apply_length.
Qed.

Lemma trailing_length (n i : nat) (xs : list R) :
  (n <= S i)%nat -> (i < List.length xs)%nat -> List.length (trailing n i xs) = n.
Proof.
  intros Hn Hi. unfold trailing. rewrite length_firstn, length_skipn. lia.
Qed.

Lemma rolling_nonneg (window : Z) :
  (0 <= window)%Z -> rolling window = Ok (Z.to_nat window).
Proof.
  intros H. unfold rolling. destruct (Z.ltb_spec window 0); [lia | reflexivity].
Qed.

Lemma rolling_negative (window : Z) :
  (window < 0)%Z ->
  rolling window = Raise (ValueError "window must be an integer 0 or greater").
Proof.
  intros H. unfold rolling. destruct (Z.ltb_spec window 0); [reflexivity | lia].
Qed.

(** ** The bounds and the comprehension *)

Lemma nth_error_upper_bound (self : t) (i : nat) :
  (i < List.length (data self))%nat ->
  nth_error (upper_bound self) i =
  Some (add (mean_at (Z.to_nat (N self)) (data self) i)
            (mul (Some (sigma self)) (std_at (Z.to_nat (N self)) (data self) i))).
Proof.
  intros Hi. unfold upper_bound, series_add, scale, mean_at, std_at,
    rolling_mean, rolling_std.
  rewrite nth_error_zip_with, nth_error_map, !nth_rolling_apply.
  rewrite !nth_error_rolling_apply by assumption.
  destruct (Nat.ltb_spec i (List.length (data self))); [reflexivity | lia].
Qed.

Lemma nth_error_lower_bound (self : t) (i : nat) :
  (i < List.length (data self))%nat ->
  nth_error (lower_bound self) i =
  Some (sub (mean_at (Z.to_nat (N self)) (data self) i)
            (mul (Some (sigma self)) (std_at (Z.to_nat (N self)) (data self) i))).
Proof.
  intros Hi. unfold lower_bound, series_sub, scale, mean_at, std_at,
    rolling_mean, rolling_std.
  rewrite nth_error_zip_with, nth_error_map, !nth_rolling_apply.
  rewrite !nth_error_rolling_apply by assumption.
  destruct (Nat.ltb_spec i (List.length (data self))); [reflexivity | lia].
Qed.

Lemma comprehension_outliers_of (self : t) :
  comprehension (date self) (data self) (upper_bound self) (lower_bound self)
  = outliers_of self.
Proof.
  unfold comprehension, outliers_of. rewrite flat_map_zip4.
  apply flat_map_ext. intros i. unfold classify.
  destruct (nth_error (date self) i) as [d|]; [|reflexivity].
  destruct (nth_error (data self) i) as [v|] eqn:Hv; [|reflexivity].
  assert (Hi : (i < List.length (data self))%nat).
  { apply nth_error_Some. congruence. }
  rewrite nth_error_upper_bound, nth_error_lower_bound by assumption.
  destruct (mean_at _ _ i) as [m|], (std_at _ _ i) as [s|]; reflexivity.
Qed.

Lemma find_outliers_nonneg (self : t) :
  (0 <= N self)%Z ->
  find_outliers self =
  Ok (if (Py.len (outliers_of self) =? 0)%Z then EmptyList else Frame (outliers_of self)).
Proof.
  intros H. unfold find_outliers. rewrite (rolling_nonneg _ H). cbn [rbind].
  fold (upper_bound self). fold (lower_bound self).
  rewrite comprehension_outliers_of.
  now destruct (Py.len (outliers_of self) =? 0)%Z.
Qed.

Lemma find_outliers_records (self : t) :
  (0 <= N self)%Z ->
  exists found, find_outliers self = Ok found /\ records found = outliers_of self.
Proof.
  intros H. rewrite (find_outliers_nonneg self H). eexists; split; [reflexivity|].
  unfold Py.len. destruct (outliers_of self); reflexivity.
Qed.

(** ** The constructor *)

Lemma timestamps_Timestamp (ts : list Z) : timestamps (map Timestamp ts) = Ok ts.
Proof.
  unfold timestamps. induction ts as [|t ts IH]; simpl; auto.
  now rewrite IH.
Qed.

Lemma column1_coerced (df : DataFrame) (ts : list Z) :
  List.length ts = List.length (rows df) -> column1 (coerced df ts) = column1 df.
Proof.
  intros H. unfold coerced, column1 at 1. cbn [rows].
  apply map_snd_combine. unfold column1. now rewrite !length_map.
Qed.

Lemma column0_coerced (df : DataFrame) (ts : list Z) :
  List.length ts = List.length (rows df) -> column0 (coerced df ts) = map Timestamp ts.
Proof.
  intros H. unfold coerced, column0. cbn [rows].
  apply map_fst_combine. unfold column1. now rewrite !length_map.
Qed.

Lemma fold_left_max_spec (l : list Z) (x : Z) :
  is_max (fold_left Z.max l x) (x :: l).
Proof.
  revert x; induction l as [|y l IH]; intros x; simpl.
  - split; [now left | repeat constructor; lia].
  - destruct (IH (Z.max x y)) as [Hin Hall]. split.
    + destruct Hin as [Hin|Hin]; [|now right; right].
      rewrite <- Hin. destruct (Z.max_spec x y) as [[_ ->]|[_ ->]]; simpl; auto.
    + inversion Hall as [|? ? Hm Hl]; subst.
      repeat constructor; trivial; lia.
Qed.

Lemma fold_left_min_spec (l : list Z) (x : Z) :
  is_min (fold_left Z.min l x) (x :: l).
Proof.
  revert x; induction l as [|y l IH]; intros x; simpl.
  - split; [now left | repeat constructor; lia].
  - destruct (IH (Z.min x y)) as [Hin Hall]. split.
    + destruct Hin as [Hin|Hin]; [|now right; right].
      rewrite <- Hin. destruct (Z.min_spec x y) as [[_ ->]|[_ ->]]; simpl; auto.
    + inversion Hall as [|? ? Hm Hl]; subst.
      repeat constructor; trivial; lia.
Qed.

Lemma max_is_max (l : list Z) (m : Z) : Py.max l = Ok m -> is_max m l.
Proof.
  destruct l as [|x l]; simpl; intros H; inversion H. apply fold_left_max_spec.
Qed.

Lemma min_is_min (l : list Z) (m : Z) : Py.min l = Ok m -> is_min m l.
Proof.
  destruct l as [|x l]; simpl; intros H; inversion H. apply fold_left_min_spec.
Qed.

Section Constructor.

Variable parse_timestamp : string -> option Z.
Variable strptime_opt : string -> string -> option Z.

Local Abbreviation init := (__init__ parse_timestamp strptime_opt).
Local Abbreviation resolve := (resolve_range strptime_opt).

Lemma min_Date_coerced (df : DataFrame) (ts : list Z) :
  List.length ts = List.length (rows df) ->
  min_Date (coerced df ts) = (Py.min ts, coerced df ts).
Proof.
  intros H. unfold min_Date, bind, read, lift.
  rewrite (column0_coerced df ts H), timestamps_Timestamp.
  now destruct (Py.min ts).
Qed.

Lemma max_Date_coerced (df : DataFrame) (ts : list Z) :
  List.length ts = List.length (rows df) ->
  max_Date (coerced df ts) = (Py.max ts, coerced df ts).
Proof.
  intros H. unfold max_Date, bind, read, lift.
  rewrite (column0_coerced df ts H), timestamps_Timestamp.
  now destruct (Py.max ts).
Qed.

(** Resolving the range reads the table and leaves it as it is. *)
Lemma resolve_range_state (sd ed : option string) (df : DataFrame) :
  snd (resolve sd ed df) = df.
Proof.
  unfold resolve_range, min_Date, max_Date, bind, read, lift, ret.
  destruct (Py.is_not_None (Py.and_ sd ed)), (Py.is_not_None sd), (Py.is_not_None ed);
    repeat match goal with
           | |- context [match ?r with Ok _ => _ | Raise _ => _ end] => destruct r
           end; reflexivity.
Qed.

(** The constructor past the empty check and the conversion of the dates. *)
Lemma init_steps (W : Z) (sg : R) (sd ed : option string) (df : DataFrame) (ts : list Z) :
  rows df <> [] ->
  to_datetime parse_timestamp (column0 df) = Ok ts ->
  init W sg sd ed df =
  match fst (resolve sd ed (coerced df ts)) with
  | Ok se =>
      if (W >? Py.len (column1 df))%Z
      then (Raise (ValueError "Error: window_size is larger than input data"),
            coerced df ts)
      else (Ok {| start := fst se; end_ := snd se; data := column1 df; date := ts;
                  sigma := sg; N := W |}, coerced df ts)
  | Raise e => (Raise e, coerced df ts)
  end.
Proof.
  intros Hrows Hts.
  assert (Hlen : List.length ts = List.length (rows df)).
  { rewrite (rmap_length _ _ _ Hts). unfold column0. apply length_map. }
  unfold __init__. unfold bind at 1, read at 1.
  unfold empty. destruct (rows df) as [|r rs] eqn:Hr; [congruence|].
  unfold bind at 1, update at 1. unfold bind at 1, read at 1.
  change (column0 (set_columns ("Date", "Value")%string df)) with (column0 df).
  unfold bind at 1, lift at 1. rewrite Hts.
  unfold bind at 1, update at 1.
  change (set_column0 (map Timestamp ts) (set_columns ("Date", "Value")%string df))
    with (coerced df ts).
  unfold bind at 1.
  pose proof (resolve_range_state sd ed (coerced df ts)) as Hst.
  destruct (resolve sd ed (coerced df ts)) as [[se|e] df1]; simpl in Hst; subst df1;
    cbn [fst]; [|reflexivity].
  unfold bind, read, lift, raise, ret.
  rewrite (column1_coerced df ts), (column0_coerced df ts), timestamps_Timestamp
    by (rewrite Hlen, Hr; reflexivity).
  now destruct (W >? Py.len (column1 df))%Z.
Qed.

Lemma init_empty (W : Z) (sg : R) (sd ed : option string) (df : DataFrame) :
  rows df = [] ->
  init W sg sd ed df = (Raise (ValueError "Error: input data frame is empty"), df).
Proof.
  intros H. unfold __init__, bind, read, raise, empty. now rewrite H.
Qed.

Lemma init_to_datetime_raises (W : Z) (sg : R) (sd ed : option string)
      (df : DataFrame) (e : exn) :
  rows df <> [] ->
  to_datetime parse_timestamp (column0 df) = Raise e ->
  init W sg sd ed df = (Raise e, set_columns ("Date", "Value")%string df).
Proof.
  intros Hrows Hts. unfold __init__. unfold bind at 1, read at 1.
  unfold empty. destruct (rows df) as [|r rs] eqn:Hr; [congruence|].
  unfold bind at 1, update at 1. unfold bind at 1, read at 1.
  change (column0 (set_columns ("Date", "Value")%string df)) with (column0 df).
  unfold bind at 1, lift at 1. now rewrite Hts.
Qed.

(** What a successful construction went through. *)
Lemma init_inv (W : Z) (sg : R) (sd ed : option string) (df df' : DataFrame) (self : t) :
  init W sg sd ed df = (Ok self, df') ->
  exists ts se,
    rows df <> [] /\
    to_datetime parse_timestamp (column0 df) = Ok ts /\
    fst (resolve sd ed (coerced df ts)) = Ok se /\
    (W <= Py.len (column1 df))%Z /\
    df' = coerced df ts /\
    self = {| start := fst se; end_ := snd se; data := column1 df; date := ts;
              sigma := sg; N := W |}.
Proof.
  intros H.
  destruct (rows df) as [|r rs] eqn:Hr.
  { rewrite (init_empty W sg sd ed df Hr) in H. discriminate. }
  assert (Hrows : rows df <> []) by (rewrite Hr; discriminate).
  destruct (to_datetime parse_timestamp (column0 df)) as [ts|e] eqn:Hts.
  2:{ rewrite (init_to_datetime_raises W sg sd ed df e Hrows Hts) in H. discriminate. }
  rewrite (init_steps W sg sd ed df ts Hrows Hts) in H.
  destruct (fst (resolve sd ed (coerced df ts))) as [se|e] eqn:Hse; [|discriminate].
  destruct (Z.gtb_spec W (Py.len (column1 df))) as [Hgt|Hle]; [discriminate|].
  inversion H; subst. exists ts, se. repeat split; auto. discriminate.
Qed.

(** With usable date arguments the range is resolved. *)
Lemma resolve_range_ok (sd ed : option string) (df : DataFrame) (ts : list Z) :
  List.length ts = List.length (rows df) ->
  ts <> [] ->
  strptime_opt EmptyString "%Y-%m-%d" = None ->
  date_ok strptime_opt sd = true ->
  date_ok strptime_opt ed = true ->
  exists se, fst (resolve sd ed (coerced df ts)) = Ok se.
Proof.
  intros Hlen Hne Hempty Hsd Hed. unfold resolve_range, Py.and_, Py.truthy.
  destruct sd as [s|], ed as [e|]; unfold date_ok in *.
  - assert (Hb : Py.is_not_None (if negb (s =? EmptyString)%string then Some e else Some s) = true)
      by now destruct (negb _).
    rewrite Hb. unfold bind, lift, ret, strptime.
    destruct (strptime_opt s _); [|discriminate].
    destruct (strptime_opt e _); [|discriminate]. now eexists.
  - destruct (String.eqb_spec s EmptyString) as [->|Hs].
    { rewrite Hempty in Hsd. discriminate. }
    change (Py.is_not_None (if negb false then None else Some s)) with false.
    change (Py.is_not_None (Some s)) with true.
    cbv iota. unfold bind at 1, lift at 1, strptime.
    destruct (strptime_opt s _); [|discriminate].
    unfold bind. rewrite (max_Date_coerced df ts Hlen).
    destruct ts as [|t ts]; [congruence|]. now eexists.
  - change (Py.is_not_None (@None string)) with false.
    change (Py.is_not_None (Some e)) with true.
    cbv iota. unfold bind at 1, lift at 1, strptime.
    destruct (strptime_opt e _); [|discriminate].
    unfold bind. rewrite (min_Date_coerced df ts Hlen).
    destruct ts as [|t ts]; [congruence|]. now eexists.
  - change (Py.is_not_None (@None string)) with false.
    cbv iota. unfold bind at 1. rewrite (min_Date_coerced df ts Hlen).
    destruct ts as [|t ts]; [congruence|]. cbn [Py.min].
    unfold bind. rewrite (max_Date_coerced df (t :: ts) Hlen). now eexists.
Qed.

End Constructor.

(** ** Construction: validation, date range, effect on the caller's table *)

(** C6. On an input table without rows the constructor raises
    [ValueError('Error: input data frame is empty')] whatever the window,
    sigma, date arguments and parsers are, and it does so first: the
    caller's table is returned untouched and nothing else was consulted. *)
Theorem empty_input_raises_first
        (parse_timestamp : string -> option Z)
        (strptime_opt : string -> string -> option Z)
        (window_size : Z) (sg : R) (start_date end_date : option string)
        (df : DataFrame) :
  rows df = [] ->
  __init__ parse_timestamp strptime_opt window_size sg start_date end_date df
  = (Raise (ValueError "Error: input data frame is empty"), df).
Proof. apply init_empty. Qed.

Lemma empty_input_raises_first_witness :
  rows Sample.no_rows = [] /\
  __init__ Sample.parse_timestamp Sample.strptime_opt 28 (3 / 2)
           (Some "yesterday"%string) None Sample.no_rows
  = (Raise (ValueError "Error: input data frame is empty"), Sample.no_rows).
Proof.
  split; [reflexivity|].
  apply (empty_input_raises_first Sample.parse_timestamp Sample.strptime_opt
           28 (3 / 2) (Some "yesterday"%string) None Sample.no_rows).
  reflexivity.
Defined.

(** C7. On a non-empty table whose dates convert, with usable date
    arguments, a window larger than the series makes the constructor raise
    [ValueError('Error: window_size is larger than input data')]; no
    detector is built, so no statistic is ever computed. *)
Theorem window_too_large_raises
        (parse_timestamp : string -> option Z)
        (strptime_opt : string -> string -> option Z)
        (window_size : Z) (sg : R) (start_date end_date : option string)
        (df : DataFrame) (ts : list Z) :
  rows df <> [] ->
  to_datetime parse_timestamp (column0 df) = Ok ts ->
  strptime_opt EmptyString "%Y-%m-%d"%string = None ->
  date_ok strptime_opt start_date = true ->
  date_ok strptime_opt end_date = true ->
  (window_size > Py.len (rows df))%Z ->
  __init__ parse_timestamp strptime_opt window_size sg start_date end_date df
  = (Raise (ValueError "Error: window_size is larger than input data"),
     coerced df ts).
Proof.
  intros Hrows Hts Hempty Hsd Hed HW.
  assert (Hlen : List.length ts = List.length (rows df)).
  { rewrite (rmap_length _ _ _ Hts). unfold column0. apply length_map. }
  assert (Hne : ts <> []).
  { intros ->. destruct (rows df); [congruence | discriminate]. }
  rewrite (init_steps _ _ _ _ _ _ df ts Hrows Hts).
  destruct (resolve_range_ok strptime_opt start_date end_date df ts
              Hlen Hne Hempty Hsd Hed) as [se ->].
  assert (Hgt : (window_size >? Py.len (column1 df))%Z = true).
  { apply Z.gtb_lt. unfold Py.len, column1 in *. rewrite length_map. lia. }
  now rewrite Hgt.
Qed.

Lemma window_too_large_raises_witness :
  __init__ Sample.parse_timestamp Sample.strptime_opt 10 (3 / 2)
           None (Some "2020-01-02"%string) (Sample.january 0 2 13)
  = (Raise (ValueError "Error: window_size is larger than input data"),
     Sample.january_coerced 0 2 13).
Proof.
  apply (window_too_large_raises Sample.parse_timestamp Sample.strptime_opt
           10 (3 / 2) None (Some "2020-01-02"%string) (Sample.january 0 2 13)
           [20200101; 20200102; 20200103]%Z).
  - discriminate.
  - reflexivity.
  - reflexivity.
  - reflexivity.
  - reflexivity.
  - reflexivity.
Defined.

(** C10. The constructor checks neither that the window is positive nor
    that sigma is non-negative: on a non-empty table whose dates convert,
    with usable date arguments, every window not above the series length
    (zero and negative ones too) and every sigma give a detector that
    records them as they are. *)
Theorem no_positivity_checks
        (parse_timestamp : string -> option Z)
        (strptime_opt : string -> string -> option Z)
        (window_size : Z) (sg : R) (start_date end_date : option string)
        (df : DataFrame) (ts : list Z) :
  rows df <> [] ->
  to_datetime parse_timestamp (column0 df) = Ok ts ->
  strptime_opt EmptyString "%Y-%m-%d"%string = None ->
  date_ok strptime_opt start_date = true ->
  date_ok strptime_opt end_date = true ->
  (window_size <= Py.len (rows df))%Z ->
  exists self,
    __init__ parse_timestamp strptime_opt window_size sg start_date end_date df
    = (Ok self, coerced df ts) /\
    N self = window_size /\ sigma self = sg /\
    data self = column1 df /\ date self = ts.
Proof.
  intros Hrows Hts Hempty Hsd Hed HW.
  assert (Hlen : List.length ts = List.length (rows df)).
  { rewrite (rmap_length _ _ _ Hts). unfold column0. apply length_map. }
  assert (Hne : ts <> []).
  { intros ->. destruct (rows df); [congruence | discriminate]. }
  rewrite (init_steps _ _ _ _ _ _ df ts Hrows Hts).
  destruct (resolve_range_ok strptime_opt start_date end_date df ts
              Hlen Hne Hempty Hsd Hed) as [se ->].
  assert (Hgt : (window_size >? Py.len (column1 df))%Z = false).
  { rewrite Z.gtb_ltb. apply Z.ltb_ge. unfold Py.len, column1 in *.
    rewrite length_map. lia. }
  rewrite Hgt. eexists; repeat split.
Qed.

Lemma no_positivity_checks_witness :
  exists self,
    __init__ Sample.parse_timestamp Sample.strptime_opt 0 (-1)
             None None (Sample.january 0 2 13)
    = (Ok self, Sample.january_coerced 0 2 13) /\
    N self = 0%Z /\ sigma self = (-1)%R /\
    data self = [0; 2; 13]%R /\ date self = [20200101; 20200102; 20200103]%Z.
Proof.
  apply (no_positivity_checks Sample.parse_timestamp Sample.strptime_opt
           0 (-1) None None (Sample.january 0 2 13)
           [20200101; 20200102; 20200103]%Z).
  - discriminate.
  - reflexivity.
  - reflexivity.
  - reflexivity.
  - reflexivity.
  - unfold Py.len. simpl. lia.
Defined.



(** C9, as the code has it.  The constructor works on the caller's table
    itself: once the table has rows and its dates convert, the table the
    caller holds afterwards is labelled ['Date', 'Value'] and its date
    column holds the converted timestamps, its values being as before;
    this is so whether the constructor then returns or raises. *)
Theorem construction_rewrites_caller_table
        (parse_timestamp : string -> option Z)
        (strptime_opt : string -> string -> option Z)
        (window_size : Z) (sg : R) (start_date end_date : option string)
        (df : DataFrame) (ts : list Z) :
  rows df <> [] ->
  to_datetime parse_timestamp (column0 df) = Ok ts ->
  let df' :=
    snd (__init__ parse_timestamp strptime_opt window_size sg start_date end_date df) in
  columns df' = ("Date", "Value")%string /\
  column0 df' = map Timestamp ts /\
  column1 df' = column1 df.
Proof.
  intros Hrows Hts df'.
  assert (Hlen : List.length ts = List.length (rows df)).
  { rewrite (rmap_length _ _ _ Hts). unfold column0. apply length_map. }
  assert (Hdf' : df' = coerced df ts).
  { unfold df'. rewrite (init_steps _ _ _ _ _ _ df ts Hrows Hts).
    destruct (fst (resolve_range strptime_opt start_date end_date (coerced df ts)));
      [destruct (window_size >? Py.len (column1 df))%Z|]; reflexivity. }
  rewrite Hdf'. split; [reflexivity|]. split.
  - now apply column0_coerced.
  - now apply column1_coerced.
Qed.

Lemma construction_rewrites_caller_table_witness :
  let df' := snd (__init__ Sample.parse_timestamp Sample.strptime_opt 3 1 None None
                           (Sample.january 0 2 13)) in
  columns df' = ("Date", "Value")%string /\
  column0 df' = map Timestamp [20200101; 20200102; 20200103]%Z /\
  column1 df' = column1 (Sample.january 0 2 13).
Proof.
  apply (construction_rewrites_caller_table Sample.parse_timestamp Sample.strptime_opt
           3 1 None None (Sample.january 0 2 13) [20200101; 20200102; 20200103]%Z).
  - discriminate.
  - reflexivity.
Defined.

(** C9 as stated fails: the caller's table of three January days, labelled
    ['day', 'amount'] with dates as strings, comes back from the constructor
    labelled ['Date', 'Value'] with timestamps in its date column. *)
Lemma caller_table_is_mutated :
  let df := Sample.january 0 2 13 in
  let df' := snd (__init__ Sample.parse_timestamp Sample.strptime_opt 3 1 None None df) in
  df' <> df /\
  columns df = ("day", "amount")%string /\ columns df' = ("Date", "Value")%string /\
  column0 df = [Str "2020-01-01"; Str "2020-01-02"; Str "2020-01-03"] /\
  column0 df' = [Timestamp 20200101; Timestamp 20200102; Timestamp 20200103].
Proof.
  cbv zeta. change (snd _) with (Sample.january_coerced 0 2 13).
  repeat split. intros H. discriminate H.
Qed.

(** ** The sample series 0, 2, 13 under a window of three *)

Lemma sample_mean : mean_of [0; 2; 13]%R = Some 5%R.
Proof. unfold mean_of, sum, nobs. cbn. f_equal. lra. Qed.

Lemma sample_std : std_of [0; 2; 13]%R = Some 7%R.
Proof.
  unfold std_of, ssqdm, sum, nobs. cbn. f_equal.
  apply sqrt_lem_1; lra.
Qed.

Lemma sample_outliers_of (w : Z) (sg : R) (lo hi : Z) :
  w = 3%Z ->
  outliers_of (Sample.detector 0 2 13 w sg lo hi) =
  if Rltb 13 (5 - sg * 7) || Rltb (5 + sg * 7) 13
  then [mkRecord 20200103 13 (Some (5 - sg * 7)%R) (Some (5 + sg * 7)%R)]
  else [].
Proof.
  intros ->. unfold outliers_of, classify, mean_at, std_at.
  unfold rolling_mean, rolling_std, rolling_apply.
  cbn [Sample.detector data date N sigma]. change (Z.to_nat 3) with 3%nat.
  cbn [List.length seq flat_map map nth nth_error Nat.leb trailing Nat.sub
       skipn firstn app].
  rewrite sample_mean, sample_std. now rewrite app_nil_r.
Qed.

(** A negative window is refused by pandas when the rolling object is
    made, that is inside [find_outliers], after construction. *)
Lemma find_outliers_negative_window (self : t) :
  (N self < 0)%Z ->
  find_outliers self = Raise (ValueError "window must be an integer 0 or greater") /\
  get_outliers self = Raise (ValueError "window must be an integer 0 or greater").
Proof.
  intros H. unfold get_outliers, find_outliers.
  rewrite (rolling_negative _ H). split; reflexivity.
Qed.

(** ** Classification *)

Lemma classify_defined (self : t) (i : nat) (d : Z) (v m s : R) :
  nth_error (date self) i = Some d ->
  nth_error (data self) i = Some v ->
  mean_at (Z.to_nat (N self)) (data self) i = Some m ->
  std_at (Z.to_nat (N self)) (data self) i = Some s ->
  classify self i =
  if Rltb v (m - sigma self * s) || Rltb (m + sigma self * s) v
  then [mkRecord d v (Some (m - sigma self * s)%R) (Some (m + sigma self * s)%R)]
  else [].
Proof. intros Hd Hv Hm Hs. unfold classify. now rewrite Hd, Hv, Hm, Hs. Qed.

Lemma outside_band (v lower upper : R) :
  Rltb v lower || Rltb upper v = true <-> (v < lower \/ v > upper)%R.
Proof.
  rewrite orb_true_iff, !Rltb_true. unfold Rgt. tauto.
Qed.

Lemma inside_band (v lower upper : R) :
  Rltb v lower || Rltb upper v = false <-> (lower <= v <= upper)%R.
Proof.
  rewrite orb_false_iff, !Rltb_false. tauto.
Qed.

Lemma std_at_nonneg (n : nat) (xs : list R) (i : nat) (s : R) :
  std_at n xs i = Some s -> (0 <= s)%R.
Proof.
  unfold std_at, rolling_std. rewrite nth_rolling_apply.
  destruct (i <? List.length xs)%nat; [|discriminate].
  destruct (n <=? S i)%nat; [|discriminate].
  unfold std_of. destruct (List.length (trailing n i xs) <=? 1)%nat; [discriminate|].
  intros H; inversion H. apply sqrt_pos.
Qed.

(** A record of the result, traced back to the index it comes from. *)
Lemma in_outliers_of (self : t) (r : OutlierRecord) :
  In r (outliers_of self) ->
  exists i m s,
    nth_error (date self) i = Some (Date r) /\
    nth_error (data self) i = Some (Abnormal_values r) /\
    mean_at (Z.to_nat (N self)) (data self) i = Some m /\
    std_at (Z.to_nat (N self)) (data self) i = Some s /\
    Lower_Bound r = Some (m - sigma self * s)%R /\
    Upper_Bound r = Some (m + sigma self * s)%R /\
    (Abnormal_values r < m - sigma self * s \/ Abnormal_values r > m + sigma self * s)%R.
Proof.
  unfold outliers_of. rewrite in_flat_map. intros (i & _ & Hin).
  unfold classify in Hin.
  destruct (nth_error (date self) i) as [d|] eqn:Hd; [|contradiction].
  destruct (nth_error (data self) i) as [v|] eqn:Hv; [|contradiction].
  destruct (mean_at _ _ i) as [m|] eqn:Hm; [|contradiction].
  destruct (std_at _ _ i) as [s|] eqn:Hs; [|contradiction].
  destruct (Rltb v _ || Rltb _ v) eqn:Hout; [|contradiction].
  destruct Hin as [<-|[]]. exists i, m, s. cbn [Date Abnormal_values Lower_Bound Upper_Bound].
  repeat split; trivial. now apply outside_band.
Qed.

(** C2. For a detector with a non-negative window, [find_outliers] returns
    the per-index classifications in series order; at an index where the
    rolling mean [m] and standard deviation [s] are defined, the original
    value [v] gives the record (date, v, m - sigma*s, m + sigma*s) exactly
    when [v < m - sigma*s] or [v > m + sigma*s], and no record exactly when
    [m - sigma*s <= v <= m + sigma*s]: a value on a bound is not an
    outlier. *)
Theorem find_outliers_classification (self : t) :
  (0 <= N self)%Z ->
  exists found,
    find_outliers self = Ok found /\
    records found = flat_map (classify self) (seq 0 (List.length (data self))) /\
    forall (i : nat) (d : Z) (v m s : R),
      nth_error (date self) i = Some d ->
      nth_error (data self) i = Some v ->
      mean_at (Z.to_nat (N self)) (data self) i = Some m ->
      std_at (Z.to_nat (N self)) (data self) i = Some s ->
      let lower := (m - sigma self * s)%R in
      let upper := (m + sigma self * s)%R in
      (classify self i = [mkRecord d v (Some lower) (Some upper)]
       <-> (v < lower \/ v > upper)%R) /\
      (classify self i = [] <-> (lower <= v <= upper)%R).
Proof.
  intros HN. destruct (find_outliers_records self HN) as (found & Hf & Hrec).
  exists found. split; [assumption|]. split; [assumption|].
  intros i d v m s Hd Hv Hm Hs lower upper.
  rewrite (classify_defined self i d v m s Hd Hv Hm Hs). fold lower upper.
  rewrite <- outside_band, <- inside_band.
  destruct (Rltb v lower || Rltb upper v); split; split; intros H;
    try reflexivity; try discriminate; congruence.
Qed.

Lemma find_outliers_classification_witness :
  exists found,
    find_outliers (Sample.detector 0 2 13 3 1 20200101 20200103) = Ok found /\
    records found
    = flat_map (classify (Sample.detector 0 2 13 3 1 20200101 20200103)) (seq 0 3) /\
    forall (i : nat) (d : Z) (v m s : R),
      nth_error [20200101; 20200102; 20200103]%Z i = Some d ->
      nth_error [0; 2; 13]%R i = Some v ->
      mean_at 3 [0; 2; 13]%R i = Some m ->
      std_at 3 [0; 2; 13]%R i = Some s ->
      (classify (Sample.detector 0 2 13 3 1 20200101 20200103) i
       = [mkRecord d v (Some (m - 1 * s)%R) (Some (m + 1 * s)%R)]
       <-> (v < m - 1 * s \/ v > m + 1 * s)%R) /\
      (classify (Sample.detector 0 2 13 3 1 20200101 20200103) i = []
       <-> (m - 1 * s <= v <= m + 1 * s)%R).
Proof.
  apply (find_outliers_classification (Sample.detector 0 2 13 3 1 20200101 20200103)).
  cbn. lia.
Defined.

(** The sample detector under sigma 1 flags the last day, with band
    [-2, 12]; under sigma 3/2 it flags nothing. *)
Lemma sample_find_outliers_sigma_1 (lo hi : Z) :
  find_outliers (Sample.detector 0 2 13 3 1 lo hi)
  = Ok (Frame [mkRecord 20200103 13 (Some (5 - 1 * 7)%R) (Some (5 + 1 * 7)%R)]).
Proof.
  rewrite find_outliers_nonneg by (cbn; lia).
  rewrite (sample_outliers_of 3 1 lo hi eq_refl).
  assert (H : Rltb 13 (5 - 1 * 7) || Rltb (5 + 1 * 7) 13 = true).
  { apply outside_band. right. lra. }
  now rewrite H.
Qed.

Lemma sample_find_outliers_sigma_3_2 (lo hi : Z) :
  find_outliers (Sample.detector 0 2 13 3 (3 / 2) lo hi) = Ok EmptyList.
Proof.
  rewrite find_outliers_nonneg by (cbn; lia).
  rewrite (sample_outliers_of 3 (3 / 2) lo hi eq_refl).
  assert (H : Rltb 13 (5 - 3 / 2 * 7) || Rltb (5 + 3 / 2 * 7) 13 = false).
  { apply inside_band. lra. }
  now rewrite H.
Qed.

(** ** The order of the bounds in the comprehension *)

Lemma sample_bounds (sg : R) (lo hi : Z) :
  upper_bound (Sample.detector 0 2 13 3 sg lo hi) = [NaN; NaN; Some (5 + sg * 7)%R] /\
  lower_bound (Sample.detector 0 2 13 3 sg lo hi) = [NaN; NaN; Some (5 - sg * 7)%R].
Proof.
  unfold upper_bound, lower_bound, series_add, series_sub, scale.
  unfold rolling_mean, rolling_std, rolling_apply.
  cbn [Sample.detector data date N sigma]. change (Z.to_nat 3) with 3%nat.
  cbn [List.length seq map Nat.leb trailing Nat.sub skipn firstn zip_with].
  rewrite sample_mean, sample_std. split; reflexivity.
Qed.

(** C3 as stated fails.  On the sample series under sigma 3/2 the band at
    the last day is [-5.5, 15.5] and the value 13 lies inside it:
    [find_outliers] returns nothing, whereas the reading with the bounds in
    each other's role flags the day. *)
Lemma swapped_reading_differs :
  find_outliers (Sample.detector 0 2 13 3 (3 / 2) 20200101 20200103) = Ok EmptyList /\
  find_outliers_swapped (Sample.detector 0 2 13 3 (3 / 2) 20200101 20200103)
  = Ok (Frame [mkRecord 20200103 13 (Some (5 + 3 / 2 * 7)%R) (Some (5 - 3 / 2 * 7)%R)]).
Proof.
  split; [apply sample_find_outliers_sigma_3_2|].
  unfold find_outliers_swapped.
  destruct (sample_bounds (3 / 2) 20200101 20200103) as [-> ->].
  cbn [Sample.detector data date N rolling Z.ltb Z.compare rbind].
  unfold comprehension_swapped.
  cbn [Py.zip4 flat_map lt gt app].
  assert (H : Rltb 13 (5 + 3 / 2 * 7) = true) by (apply Rltb_true; lra).
  rewrite H. reflexivity.
Qed.

(** C3, as the code has it.  The comprehension unpacks the third component
    of the [zip] (the upper-bound series) as [upper] and the fourth (the
    lower-bound series) as [lower]: every record [find_outliers] returns
    comes from an index of the series, carries that index's entry of the
    lower-bound series [mean - sigma*std] as its lower bound and that of
    the upper-bound series [mean + sigma*std] as its upper bound, and its
    value is below the lower bound or above the upper bound. *)
Theorem bounds_keep_their_roles (self : t) (found : found) (r : OutlierRecord) :
  (0 <= N self)%Z ->
  find_outliers self = Ok found ->
  In r (records found) ->
  exists (i : nat) (m s : R),
    nth_error (date self) i = Some (Date r) /\
    nth_error (data self) i = Some (Abnormal_values r) /\
    nth_error (lower_bound self) i = Some (Lower_Bound r) /\
    nth_error (upper_bound self) i = Some (Upper_Bound r) /\
    mean_at (Z.to_nat (N self)) (data self) i = Some m /\
    std_at (Z.to_nat (N self)) (data self) i = Some s /\
    Lower_Bound r = Some (m - sigma self * s)%R /\
    Upper_Bound r = Some (m + sigma self * s)%R /\
    (Abnormal_values r < m - sigma self * s \/ Abnormal_values r > m + sigma self * s)%R.
Proof.
  intros HN Hf Hin.
  destruct (find_outliers_records self HN) as (found' & Hf' & Hrec).
  rewrite Hf in Hf'. inversion Hf'; subst found'. rewrite Hrec in Hin.
  destruct (in_outliers_of self r Hin) as (i & m & s & Hd & Hv & Hm & Hs & Hlo & Hup & Hout).
  assert (Hi : (i < List.length (data self))%nat).
  { apply nth_error_Some. congruence. }
  exists i, m, s. repeat split; trivial.
  - rewrite (nth_error_lower_bound self i Hi), Hm, Hs, Hlo. reflexivity.
  - rewrite (nth_error_upper_bound self i Hi), Hm, Hs, Hup. reflexivity.
Qed.

Lemma bounds_keep_their_roles_witness :
  exists (i : nat) (m s : R),
    nth_error [20200101; 20200102; 20200103]%Z i = Some 20200103%Z /\
    nth_error [0; 2; 13]%R i = Some 13%R /\
    nth_error (lower_bound (Sample.detector 0 2 13 3 1 20200101 20200103)) i
    = Some (Some (5 - 1 * 7)%R) /\
    nth_error (upper_bound (Sample.detector 0 2 13 3 1 20200101 20200103)) i
    = Some (Some (5 + 1 * 7)%R) /\
    mean_at 3 [0; 2; 13]%R i = Some m /\
    std_at 3 [0; 2; 13]%R i = Some s /\
    Some (5 - 1 * 7)%R = Some (m - 1 * s)%R /\
    Some (5 + 1 * 7)%R = Some (m + 1 * s)%R /\
    (13 < m - 1 * s \/ 13 > m + 1 * s)%R.
Proof.
  apply (bounds_keep_their_roles
           (Sample.detector 0 2 13 3 1 20200101 20200103)
           (Frame [mkRecord 20200103 13 (Some (5 - 1 * 7)%R) (Some (5 + 1 * 7)%R)])
           (mkRecord 20200103 13 (Some (5 - 1 * 7)%R) (Some (5 + 1 * 7)%R))).
  - cbn. lia.
  - apply sample_find_outliers_sigma_1.
  - left. reflexivity.
Defined.

(** ** Sigma *)

Lemma classify_length (self : t) (i : nat) : (List.length (classify self i) <= 1)%nat.
Proof.
  unfold classify.
  destruct (nth_error (date self) i); [|simpl; lia].
  destruct (nth_error (data self) i); [|simpl; lia].
  destruct (mean_at _ _ i); [|simpl; lia].
  destruct (std_at _ _ i); [|simpl; lia].
  destruct (Rltb _ _ || Rltb _ _); simpl; lia.
Qed.

(** A wider band flags no index the narrower one leaves alone. *)
Lemma classify_sigma_le (self1 self2 : t) (i : nat) :
  data self1 = data self2 -> date self1 = date self2 -> N self1 = N self2 ->
  (sigma self1 <= sigma self2)%R ->
  classify self2 i <> [] -> classify self1 i <> [].
Proof.
  intros Hdata Hdate HN Hsg. unfold classify. rewrite Hdata, Hdate, HN.
  destruct (nth_error (date self2) i) as [d|]; [|congruence].
  destruct (nth_error (data self2) i) as [v|]; [|congruence].
  destruct (mean_at _ _ i) as [m|]; [|congruence].
  destruct (std_at _ _ i) as [s|] eqn:Hs; [|congruence].
  apply std_at_nonneg in Hs.
  destruct (Rltb v (m - sigma self2 * s) || Rltb (m + sigma self2 * s) v) eqn:H2;
    [|congruence].
  intros _. apply outside_band in H2.
  assert (H1 : Rltb v (m - sigma self1 * s) || Rltb (m + sigma self1 * s) v = true).
  { apply outside_band. destruct H2; [left | right]; nra. }
  rewrite H1. discriminate.
Qed.

Lemma outliers_of_sigma_le (self1 self2 : t) :
  data self1 = data self2 -> date self1 = date self2 -> N self1 = N self2 ->
  (sigma self1 <= sigma self2)%R ->
  (List.length (outliers_of self2) <= List.length (outliers_of self1))%nat.
Proof.
  intros Hdata Hdate HN Hsg. unfold outliers_of. rewrite Hdata.
  apply flat_map_length_le. intros i.
  pose proof (classify_sigma_le self1 self2 i Hdata Hdate HN Hsg) as H.
  pose proof (classify_length self2 i) as Hle.
  destruct (classify self2 i) as [|r2 l2]; [simpl; lia|].
  destruct (classify self1 i) as [|r1 l1]; [exfalso; apply H; [discriminate | reflexivity]|].
  simpl in *. lia.
Qed.

(** C8. Two detectors built from the same table, window and date arguments
    with sigmas [s1 <= s2]: the one with the larger sigma returns at most as
    many outliers, and flags no index the other does not flag.  (Neither
    sigma has to be non-negative: the standard deviation is.) *)
Theorem sigma_monotone
        (parse_timestamp : string -> option Z)
        (strptime_opt : string -> string -> option Z)
        (window_size : Z) (s1 s2 : R) (start_date end_date : option string)
        (df df1 df2 : DataFrame) (self1 self2 : t) :
  __init__ parse_timestamp strptime_opt window_size s1 start_date end_date df
  = (Ok self1, df1) ->
  __init__ parse_timestamp strptime_opt window_size s2 start_date end_date df
  = (Ok self2, df2) ->
  (0 <= window_size)%Z ->
  (s1 <= s2)%R ->
  exists found1 found2,
    find_outliers self1 = Ok found1 /\
    find_outliers self2 = Ok found2 /\
    (len found2 <= len found1)%Z /\
    forall i, classify self2 i <> [] -> classify self1 i <> [].
Proof.
  intros H1 H2 HW Hs.
  destruct (init_inv _ _ _ _ _ _ _ _ _ H1) as (ts1 & se1 & _ & Hts1 & _ & _ & _ & E1).
  destruct (init_inv _ _ _ _ _ _ _ _ _ H2) as (ts2 & se2 & _ & Hts2 & _ & _ & _ & E2).
  rewrite Hts1 in Hts2. inversion Hts2; subst ts2.
  assert (Hdata : data self1 = data self2) by (subst; reflexivity).
  assert (Hdate : date self1 = date self2) by (subst; reflexivity).
  assert (HN : N self1 = N self2) by (subst; reflexivity).
  assert (Hsg : (sigma self1 <= sigma self2)%R) by (subst; assumption).
  assert (HN1 : (0 <= N self1)%Z) by (subst; assumption).
  assert (HN2 : (0 <= N self2)%Z) by (subst; assumption).
  destruct (find_outliers_records self1 HN1) as (f1 & Hf1 & Hr1).
  destruct (find_outliers_records self2 HN2) as (f2 & Hf2 & Hr2).
  exists f1, f2. repeat split; trivial.
  - unfold len, Py.len. rewrite Hr1, Hr2.
    apply Nat2Z.inj_le. now apply outliers_of_sigma_le.
  - intros i. now apply classify_sigma_le.
Qed.

Lemma sigma_monotone_witness :
  exists found1 found2,
    find_outliers (Sample.detector 0 2 13 3 1 20200101 20200103) = Ok found1 /\
    find_outliers (Sample.detector 0 2 13 3 (3 / 2) 20200101 20200103) = Ok found2 /\
    (len found2 <= len found1)%Z /\
    forall i, classify (Sample.detector 0 2 13 3 (3 / 2) 20200101 20200103) i <> [] ->
              classify (Sample.detector 0 2 13 3 1 20200101 20200103) i <> [].
Proof.
  apply (sigma_monotone Sample.parse_timestamp Sample.strptime_opt 3 1 (3 / 2) None None
           (Sample.january 0 2 13)
           (Sample.january_coerced 0 2 13) (Sample.january_coerced 0 2 13)).
  - reflexivity.
  - reflexivity.
  - lia.
  - lra.
Defined.

(** ** The tagged result *)

(** C1. For a detector with a non-negative window, [get_outliers] answers
    ('Sucess', 'No anomalies found') exactly when [find_outliers] found
    nothing, and otherwise ('Failure', records) where the records are those
    of [find_outliers] whose date lies in [start, end], both ends included.
    The tag follows the set before the date filter. *)
Theorem get_outliers_tag (self : t) :
  (0 <= N self)%Z ->
  exists found,
    find_outliers self = Ok found /\
    (records found = [] ->
     get_outliers self = Ok ("Sucess"%string, Message "No anomalies found")) /\
    (records found <> [] ->
     get_outliers self
     = Ok ("Failure"%string,
           Table (filter (in_range (start self) (end_ self)) (records found)))) /\
    (forall r, In r (filter (in_range (start self) (end_ self)) (records found))
               <-> In r (records found) /\ (start self <= Date r <= end_ self)%Z).
Proof.
  intros HN. destruct (find_outliers_records self HN) as (found & Hf & Hrec).
  exists found. split; [assumption|]. unfold get_outliers. rewrite Hf. cbn [rbind].
  unfold len, Py.len. split; [|split].
  - intros ->. reflexivity.
  - intros Hne. destruct (records found) as [|r l]; [congruence | reflexivity].
  - intros r. rewrite filter_In. unfold in_range. rewrite andb_true_iff.
    rewrite Z.geb_le, Z.leb_le. tauto.
Qed.

(** The sample detector restricted to February: one outlier before the
    filter, none after it, and the tag is still 'Failure'. *)
Lemma sample_failure_without_records :
  get_outliers (Sample.detector 0 2 13 3 1 20200201 20200228)
  = Ok ("Failure"%string, Table []).
Proof.
  unfold get_outliers. rewrite sample_find_outliers_sigma_1. reflexivity.
Qed.

Lemma get_outliers_tag_witness :
  exists found,
    find_outliers (Sample.detector 0 2 13 3 1 20200201 20200228) = Ok found /\
    (records found = [] ->
     get_outliers (Sample.detector 0 2 13 3 1 20200201 20200228)
     = Ok ("Sucess"%string, Message "No anomalies found")) /\
    (records found <> [] ->
     get_outliers (Sample.detector 0 2 13 3 1 20200201 20200228)
     = Ok ("Failure"%string, Table (filter (in_range 20200201 20200228) (records found)))) /\
    (forall r, In r (filter (in_range 20200201 20200228) (records found))
               <-> In r (records found) /\ (20200201 <= Date r <= 20200228)%Z).
Proof.
  apply (get_outliers_tag (Sample.detector 0 2 13 3 1 20200201 20200228)).
  cbn. lia.
Defined.

(** ** Where the statistics are defined *)

Lemma count_seq_ge (k L : nat) :
  List.length (filter (fun i => (k <=? i)%nat) (seq 0 L)) = (L - k)%nat.
Proof.
  induction L as [|L IH]; [reflexivity|].
  rewrite seq_S, filter_app, length_app, IH. cbn [Nat.add filter].
  destruct (Nat.leb_spec k L); cbn [List.length]; lia.
Qed.

Lemma mean_at_full_window (n : nat) (xs : list R) (i : nat) :
  (1 <= n)%nat -> (n <= S i)%nat -> (i < List.length xs)%nat ->
  mean_at n xs i = Some (sum (trailing n i xs) / IZR (Z.of_nat n))%R.
Proof.
  intros Hn Hni Hi. unfold mean_at, rolling_mean. rewrite nth_rolling_apply.
  destruct (Nat.ltb_spec i (List.length xs)); [|lia].
  destruct (Nat.leb_spec n (S i)); [|lia].
  pose proof (trailing_length n i xs Hni Hi) as Hlen.
  unfold mean_of, nobs. destruct (trailing n i xs) as [|x w] eqn:Hw.
  - simpl in Hlen. lia.
  - now rewrite Hlen.
Qed.

Lemma std_at_full_window (n : nat) (xs : list R) (i : nat) :
  (2 <= n)%nat -> (n <= S i)%nat -> (i < List.length xs)%nat ->
  std_at n xs i
  = Some (sqrt (ssqdm (trailing n i xs) / (IZR (Z.of_nat n) - 1)))%R.
Proof.
  intros Hn Hni Hi. unfold std_at, rolling_std. rewrite nth_rolling_apply.
  destruct (Nat.ltb_spec i (List.length xs)); [|lia].
  destruct (Nat.leb_spec n (S i)); [|lia].
  pose proof (trailing_length n i xs Hni Hi) as Hlen.
  unfold std_of, nobs. rewrite Hlen.
  destruct (Nat.leb_spec n 1); [lia | reflexivity].
Qed.

Lemma stats_at_short_window (stat : list R -> float) (n : nat) (xs : list R) (i : nat) :
  (S i < n)%nat -> nth i (rolling_apply stat n xs) NaN = NaN.
Proof.
  intros Hi. rewrite nth_rolling_apply.
  destruct (i <? List.length xs)%nat; [|reflexivity].
  destruct (Nat.leb_spec n (S i)); [lia | reflexivity].
Qed.

(** The window at index [i]: the [n] values at positions [i-n+1 .. i]. *)
Lemma trailing_position (n i : nat) (xs : list R) :
  (n <= S i)%nat -> (i < List.length xs)%nat ->
  exists before after,
    xs = before ++ trailing n i xs ++ after /\
    List.length before = (S i - n)%nat /\
    List.length (trailing n i xs) = n.
Proof.
  intros Hni Hi. exists (firstn (S i - n) xs), (skipn n (skipn (S i - n) xs)).
  split; [|split].
  - unfold trailing. now rewrite !firstn_skipn.
  - rewrite length_firstn. lia.
  - now apply trailing_length.
Qed.

Lemma bound_defined_full_window (self : t) (n i : nat) :
  N self = Z.of_nat n -> (2 <= n)%nat -> (i < List.length (data self))%nat ->
  bound_defined self i = (n - 1 <=? i)%nat.
Proof.
  intros HN Hn Hi. unfold bound_defined.
  rewrite (nth_error_nth _ _ NaN (nth_error_lower_bound self i Hi)).
  rewrite (nth_error_nth _ _ NaN (nth_error_upper_bound self i Hi)).
  rewrite HN, Nat2Z.id.
  destruct (Nat.leb_spec (n - 1) i) as [Hge|Hlt].
  - rewrite mean_at_full_window, std_at_full_window by lia. reflexivity.
  - unfold mean_at, std_at, rolling_mean, rolling_std.
    rewrite !stats_at_short_window by lia. reflexivity.
Qed.

(** C4, as the code has it: windows of at least two values.  At an index
    [i >= n - 1] the mean and the sample standard deviation (divisor
    [n - 1]) are those of the [n] values at positions [i-n+1 .. i]; at an
    index [i < n - 1] both are missing and the index is not classified; the
    indices with a defined bound number [L - n + 1]. *)
Theorem rolling_statistics_defined (self : t) (n : nat) :
  N self = Z.of_nat n ->
  (2 <= n <= List.length (data self))%nat ->
  (forall i, (i < List.length (data self))%nat ->
     ((n - 1 <= i)%nat ->
      exists before w after,
        data self = before ++ w ++ after /\
        List.length before = (i + 1 - n)%nat /\
        List.length w = n /\
        mean_at n (data self) i = Some (sum w / IZR (Z.of_nat n))%R /\
        std_at n (data self) i = Some (sqrt (ssqdm w / (IZR (Z.of_nat n) - 1)))%R) /\
     ((i < n - 1)%nat ->
      mean_at n (data self) i = NaN /\
      std_at n (data self) i = NaN /\
      bound_defined self i = false /\
      classify self i = [])) /\
  defined_bounds self = (List.length (data self) - n + 1)%nat.
Proof.
  intros HN [Hn HL]. split.
  - intros i Hi. split.
    + intros Hge.
      destruct (trailing_position n i (data self)) as (before & after & Hx & Hb & Hw);
        [lia | assumption |].
      exists before, (trailing n i (data self)), after.
      repeat split; trivial; try lia.
      * apply mean_at_full_window; lia.
      * apply std_at_full_window; lia.
    + intros Hlt.
      assert (Hm : mean_at n (data self) i = NaN).
      { unfold mean_at, rolling_mean. apply stats_at_short_window. lia. }
      assert (Hs : std_at n (data self) i = NaN).
      { unfold std_at, rolling_std. apply stats_at_short_window. lia. }
      repeat split; trivial.
      * rewrite (bound_defined_full_window self n i HN Hn Hi).
        apply Nat.leb_gt. lia.
      * unfold classify. rewrite HN, Nat2Z.id, Hm.
        destruct (nth_error (date self) i), (nth_error (data self) i); reflexivity.
  - unfold defined_bounds.
    rewrite (filter_ext_in (bound_defined self) (fun i => (n - 1 <=? i)%nat)).
    + rewrite count_seq_ge. lia.
    + intros i Hin. apply in_seq in Hin.
      apply (bound_defined_full_window self n i HN Hn). lia.
Qed.

Lemma rolling_statistics_defined_witness :
  (forall i, (i < 3)%nat ->
     ((3 - 1 <= i)%nat ->
      exists before w after,
        [0; 2; 13]%R = before ++ w ++ after /\
        List.length before = (i + 1 - 3)%nat /\
        List.length w = 3%nat /\
        mean_at 3 [0; 2; 13]%R i = Some (sum w / 3)%R /\
        std_at 3 [0; 2; 13]%R i = Some (sqrt (ssqdm w / (3 - 1)))%R) /\
     ((i < 3 - 1)%nat ->
      mean_at 3 [0; 2; 13]%R i = NaN /\
      std_at 3 [0; 2; 13]%R i = NaN /\
      bound_defined (Sample.detector 0 2 13 3 1 20200101 20200103) i = false /\
      classify (Sample.detector 0 2 13 3 1 20200101 20200103) i = [])) /\
  defined_bounds (Sample.detector 0 2 13 3 1 20200101 20200103) = (3 - 3 + 1)%nat.
Proof.
  apply (rolling_statistics_defined (Sample.detector 0 2 13 3 1 20200101 20200103) 3).
  - reflexivity.
  - cbn. lia.
Defined.

(** C4 as stated fails for a window of one value: the sample standard
    deviation of a single value has divisor zero and is missing, so although
    the mean is defined at every index no index has a defined bound, where
    the claim counts [L - W + 1 = 3] of them. *)
Lemma window_of_one_has_no_bounds :
  (N (Sample.detector 0 2 13 1 1 20200101 20200103)
   <= Py.len (data (Sample.detector 0 2 13 1 1 20200101 20200103)))%Z /\
  is_defined (mean_at 1 [0; 2; 13]%R 0) = true /\
  std_at 1 [0; 2; 13]%R 0 = NaN /\
  std_at 1 [0; 2; 13]%R 1 = NaN /\
  std_at 1 [0; 2; 13]%R 2 = NaN /\
  defined_bounds (Sample.detector 0 2 13 1 1 20200101 20200103) = 0%nat /\
  (List.length (data (Sample.detector 0 2 13 1 1 20200101 20200103)) - 1 + 1 = 3)%nat.
Proof.
  repeat split; try reflexivity. cbn. lia.
Qed.

(** * Further properties of the code *)

(** ** Statistics of a window, read backwards *)

Lemma mean_at_inv (n : nat) (xs : list R) (i : nat) (m : R) :
  mean_at n xs i = Some m ->
  (i < List.length xs)%nat /\ (n <= S i)%nat /\
  trailing n i xs <> [] /\
  m = (sum (trailing n i xs) / nobs (trailing n i xs))%R.
Proof.
  unfold mean_at, rolling_mean. rewrite nth_rolling_apply.
  destruct (Nat.ltb_spec i (List.length xs)); [|discriminate].
  destruct (Nat.leb_spec n (S i)); [|discriminate].
  unfold mean_of. destruct (trailing n i xs) as [|x w]; [discriminate|].
  intros E; inversion E. repeat split; trivial. discriminate.
Qed.

Lemma std_at_inv (n : nat) (xs : list R) (i : nat) (s : R) :
  std_at n xs i = Some s ->
  (i < List.length xs)%nat /\ (n <= S i)%nat /\
  (1 < List.length (trailing n i xs))%nat /\
  s = sqrt (ssqdm (trailing n i xs) / (nobs (trailing n i xs) - 1)).
Proof.
  unfold std_at, rolling_std. rewrite nth_rolling_apply.
  destruct (Nat.ltb_spec i (List.length xs)); [|discriminate].
  destruct (Nat.leb_spec n (S i)); [|discriminate].
  unfold std_of. destruct (Nat.leb_spec (List.length (trailing n i xs)) 1);
    [discriminate|].
  intros E; inversion E. repeat split; trivial.
Qed.

Lemma trailing_incl (n i : nat) (xs : list R) (x : R) :
  In x (trailing n i xs) -> In x xs.
Proof.
  unfold trailing. intros H.
  rewrite <- (firstn_skipn (S i - n) xs). apply in_or_app. right.
  rewrite <- (firstn_skipn n (skipn (S i - n) xs)). apply in_or_app. now left.
Qed.

Lemma trailing_length_le (n i : nat) (xs : list R) :
  (List.length (trailing n i xs) <= n)%nat.
Proof. unfold trailing. rewrite length_firstn. lia. Qed.

Lemma nobs_pos (w : list R) : w <> [] -> (0 < nobs w)%R.
Proof.
  intros H. unfold nobs. apply IZR_lt. destruct w; [congruence | simpl; lia].
Qed.

Lemma sum_constant (w : list R) (c : R) :
  (forall x, In x w -> x = c) -> sum w = (nobs w * c)%R.
Proof.
  unfold nobs. induction w as [|x w IH]; intros H.
  - simpl. lra.
  - cbn [sum fold_right]. fold (sum w). rewrite IH by (intros y Hy; apply H; now right).
    rewrite (H x) by now left.
    cbn [List.length]. rewrite Nat2Z.inj_succ, succ_IZR. lra.
Qed.

Lemma sum_zero (w : list R) : (forall x, In x w -> x = 0%R) -> sum w = 0%R.
Proof.
  intros H. rewrite (sum_constant w 0 H). lra.
Qed.

Lemma mean_constant (w : list R) (c : R) :
  w <> [] -> (forall x, In x w -> x = c) -> (sum w / nobs w)%R = c.
Proof.
  intros Hne H. rewrite (sum_constant w c H).
  pose proof (nobs_pos w Hne). field. lra.
Qed.

Lemma ssqdm_constant (w : list R) (c : R) :
  w <> [] -> (forall x, In x w -> x = c) -> ssqdm w = 0%R.
Proof.
  intros Hne H. unfold ssqdm. cbv zeta. rewrite (mean_constant w c Hne H).
  apply sum_zero. intros y Hy. apply in_map_iff in Hy.
  destruct Hy as (x & <- & Hx). rewrite (H x Hx). lra.
Qed.

Lemma outliers_of_nil (self : t) :
  (forall i, classify self i = []) -> outliers_of self = [].
Proof.
  intros H. unfold outliers_of.
  rewrite (flat_map_ext _ (fun _ => []) H). apply flat_map_nil.
Qed.

Lemma nothing_found (self : t) :
  (0 <= N self)%Z -> outliers_of self = [] ->
  find_outliers self = Ok EmptyList /\
  get_outliers self = Ok ("Sucess"%string, Message "No anomalies found").
Proof.
  intros HN H. unfold get_outliers. rewrite (find_outliers_nonneg self HN), H.
  split; reflexivity.
Qed.

(** ** Series on which nothing is flagged *)

(** X1. A series whose values are all equal has a zero standard deviation
    in every full window: whatever the (non-negative) window and sigma,
    [find_outliers] returns the empty list and [get_outliers] reports
    success. *)
Theorem constant_series_no_outliers (self : t) (c : R) :
  (0 <= N self)%Z ->
  (forall v, In v (data self) -> v = c) ->
  find_outliers self = Ok EmptyList /\
  get_outliers self = Ok ("Sucess"%string, Message "No anomalies found").
Proof.
  intros HN Hc. apply nothing_found; [assumption|].
  apply outliers_of_nil. intros i. unfold classify.
  destruct (nth_error (date self) i) as [d|]; [|reflexivity].
  destruct (nth_error (data self) i) as [v|] eqn:Hv; [|reflexivity].
  destruct (mean_at _ _ i) as [m|] eqn:Hm; [|reflexivity].
  destruct (std_at _ _ i) as [s|] eqn:Hs; [|reflexivity].
  apply mean_at_inv in Hm. destruct Hm as (_ & _ & Hne & ->).
  apply std_at_inv in Hs. destruct Hs as (_ & _ & _ & ->).
  assert (Hw : forall x, In x (trailing (Z.to_nat (N self)) i (data self)) -> x = c).
  { intros x Hx. apply Hc. now apply trailing_incl in Hx. }
  rewrite (mean_constant _ c Hne Hw), (ssqdm_constant _ c Hne Hw).
  replace (0 / (nobs (trailing (Z.to_nat (N self)) i (data self)) - 1))%R with 0%R
    by (unfold Rdiv; lra).
  rewrite sqrt_0, (Hc v (nth_error_In _ _ Hv)).
  assert (H : Rltb c (c - sigma self * 0) || Rltb (c + sigma self * 0) c = false).
  { apply inside_band. lra. }
  now rewrite H.
Qed.

Lemma constant_series_no_outliers_witness :
  find_outliers (Sample.detector 4 4 4 2 (3 / 2) 20200101 20200103) = Ok EmptyList /\
  get_outliers (Sample.detector 4 4 4 2 (3 / 2) 20200101 20200103)
  = Ok ("Sucess"%string, Message "No anomalies found").
Proof.
  apply (constant_series_no_outliers (Sample.detector 4 4 4 2 (3 / 2) 20200101 20200103) 4).
  - cbn. lia.
  - cbn. intros v [H|[H|[H|[]]]]; symmetry; exact H.
Defined.

(** X2. Under a window of zero or one value the standard deviation is
    missing at every index, so no value is ever flagged, however far from
    the others it lies. *)
Theorem tiny_window_no_outliers (self : t) :
  (0 <= N self <= 1)%Z ->
  find_outliers self = Ok EmptyList /\
  get_outliers self = Ok ("Sucess"%string, Message "No anomalies found").
Proof.
  intros HN. apply nothing_found; [lia|].
  apply outliers_of_nil. intros i. unfold classify.
  destruct (nth_error (date self) i) as [d|]; [|reflexivity].
  destruct (nth_error (data self) i) as [v|]; [|reflexivity].
  destruct (mean_at _ _ i) as [m|]; [|reflexivity].
  destruct (std_at _ _ i) as [s|] eqn:Hs; [|reflexivity].
  apply std_at_inv in Hs. destruct Hs as (_ & _ & Hlen & _).
  pose proof (trailing_length_le (Z.to_nat (N self)) i (data self)). lia.
Qed.

Lemma tiny_window_no_outliers_witness :
  find_outliers (Sample.detector 0 2 1000 1 0 20200101 20200103) = Ok EmptyList /\
  get_outliers (Sample.detector 0 2 1000 1 0 20200101 20200103)
  = Ok ("Sucess"%string, Message "No anomalies found").
Proof.
  apply (tiny_window_no_outliers (Sample.detector 0 2 1000 1 0 20200101 20200103)).
  cbn. lia.
Defined.

(** ** Windows and sigmas the constructor lets through *)

(** X3. A negative window passes the constructor (it is not larger than the
    series) and is refused only when the rolling object is made: both
    [find_outliers] and [get_outliers] then raise pandas' [ValueError]. *)
Theorem negative_window_raises_late
        (parse_timestamp : string -> option Z)
        (strptime_opt : string -> string -> option Z)
        (window_size : Z) (sg : R) (start_date end_date : option string)
        (df df' : DataFrame) (self : t) :
  __init__ parse_timestamp strptime_opt window_size sg start_date end_date df
  = (Ok self, df') ->
  (window_size < 0)%Z ->
  find_outliers self = Raise (ValueError "window must be an integer 0 or greater") /\
  get_outliers self = Raise (ValueError "window must be an integer 0 or greater").
Proof.
  intros H HW.
  destruct (init_inv _ _ _ _ _ _ _ _ _ H) as (ts & se & _ & _ & _ & _ & _ & ->).
  apply find_outliers_negative_window. assumption.
Qed.

Lemma negative_window_raises_late_witness :
  find_outliers (Sample.detector 0 2 13 (-1) 1 20200101 20200103)
  = Raise (ValueError "window must be an integer 0 or greater") /\
  get_outliers (Sample.detector 0 2 13 (-1) 1 20200101 20200103)
  = Raise (ValueError "window must be an integer 0 or greater").
Proof.
  apply (negative_window_raises_late Sample.parse_timestamp Sample.strptime_opt
           (-1) 1 None None (Sample.january 0 2 13) (Sample.january_coerced 0 2 13)).
  - reflexivity.
  - lia.
Defined.

Lemma flat_map_length_le_1 {A B : Type} (f : A -> list B) (l : list A) :
  (forall a, (List.length (f a) <= 1)%nat) ->
  (List.length (flat_map f l) <= List.length l)%nat.
Proof.
  intros H. induction l as [|a l IH]; simpl; auto.
  rewrite length_app. specialize (H a). lia.
Qed.

Lemma flat_map_ext_in_nil {A B : Type} (f : A -> list B) (l : list A) :
  (forall a, In a l -> f a = []) -> flat_map f l = [].
Proof.
  intros H. induction l as [|a l IH]; simpl; auto.
  rewrite (H a) by now left. apply IH. intros b Hb. apply H. now right.
Qed.

Lemma classify_short_window (self : t) (i : nat) :
  (S i < Z.to_nat (N self))%nat -> classify self i = [].
Proof.
  intros Hi. unfold classify, mean_at, rolling_mean.
  rewrite (stats_at_short_window mean_of _ (data self) i Hi).
  destruct (nth_error (date self) i), (nth_error (data self) i); reflexivity.
Qed.

(** X4. With a window of [W >= 1] values on a series of [L >= W] values,
    [find_outliers] returns at most [L - W + 1] records: the first [W - 1]
    values are never among them. *)
Theorem outlier_count_bound (self : t) :
  (1 <= N self <= Py.len (data self))%Z ->
  exists found,
    find_outliers self = Ok found /\
    (len found <= Py.len (data self) - N self + 1)%Z /\
    records found
    = flat_map (classify self)
               (seq (Z.to_nat (N self) - 1)
                    (List.length (data self) - (Z.to_nat (N self) - 1))).
Proof.
  intros [H1 HL]. unfold Py.len in HL.
  destruct (find_outliers_records self) as (found & Hf & Hrec); [lia|].
  exists found. split; [assumption|].
  set (n := Z.to_nat (N self)). set (L := List.length (data self)).
  assert (Hn : (1 <= n <= L)%nat) by (unfold n, L; lia).
  assert (Hsplit : outliers_of self
                   = flat_map (classify self) (seq (n - 1) (L - (n - 1)))).
  { unfold outliers_of. fold L.
    replace L with ((n - 1) + (L - (n - 1)))%nat at 1 by lia.
    rewrite seq_app, flat_map_app. cbn [Nat.add].
    rewrite (flat_map_ext_in_nil (classify self) (seq 0 (n - 1))); [reflexivity|].
    intros i Hi. apply in_seq in Hi. apply classify_short_window. fold n. lia. }
  split.
  - unfold len, Py.len. rewrite Hrec, Hsplit.
    pose proof (flat_map_length_le_1 (classify self) (seq (n - 1) (L - (n - 1)))
                  (classify_length self)) as Hle.
    rewrite length_seq in Hle. fold L. lia.
  - now rewrite Hrec, Hsplit.
Qed.

Lemma outlier_count_bound_witness :
  exists found,
    find_outliers (Sample.detector 0 2 13 3 1 20200101 20200103) = Ok found /\
    (len found <= 3 - 3 + 1)%Z /\
    records found
    = flat_map (classify (Sample.detector 0 2 13 3 1 20200101 20200103)) (seq 2 1).
Proof.
  apply (outlier_count_bound (Sample.detector 0 2 13 3 1 20200101 20200103)).
  cbn. lia.
Defined.

(** ** What construction guarantees *)

Section Built.

Variable parse_timestamp : string -> option Z.
Variable strptime_opt : string -> string -> option Z.

Lemma to_datetime_length (col : list cell) (ts : list Z) :
  to_datetime parse_timestamp col = Ok ts -> List.length ts = List.length col.
Proof. apply rmap_length. Qed.

Lemma to_datetime_Timestamp (ts : list Z) :
  to_datetime parse_timestamp (map Timestamp ts) = Ok ts.
Proof.
  unfold to_datetime. induction ts as [|t ts IH]; simpl; auto.
  now rewrite IH.
Qed.

(** The range when neither date is given. *)
Lemma resolve_range_default (df : DataFrame) (ts : list Z) (se : Z * Z) :
  List.length ts = List.length (rows df) ->
  fst (resolve_range strptime_opt None None (coerced df ts)) = Ok se ->
  is_min (fst se) ts /\ is_max (snd se) ts.
Proof.
  intros Hlen. unfold resolve_range, Py.and_, Py.truthy.
  change (Py.is_not_None (@None string)) with false. cbv iota.
  unfold bind at 1. rewrite (min_Date_coerced df ts Hlen).
  destruct (Py.min ts) as [a|] eqn:Hmin; [|discriminate].
  unfold bind. rewrite (max_Date_coerced df ts Hlen).
  destruct (Py.max ts) as [b|] eqn:Hmax; [|discriminate].
  cbn. intros H; inversion H; subst. cbn [fst snd]. split.
  - now apply min_is_min.
  - now apply max_is_max.
Qed.

End Built.

(** X5. A detector built without [start_date] and [end_date] filters
    nothing out: when [find_outliers] finds records, [get_outliers] returns
    all of them, in the same order, under the tag 'Failure'. *)
Theorem default_range_keeps_all
        (parse_timestamp : string -> option Z)
        (strptime_opt : string -> string -> option Z)
        (window_size : Z) (sg : R) (df df' : DataFrame) (self : t) :
  __init__ parse_timestamp strptime_opt window_size sg None None df = (Ok self, df') ->
  (0 <= window_size)%Z ->
  exists found,
    find_outliers self = Ok found /\
    (records found <> [] ->
     get_outliers self = Ok ("Failure"%string, Table (records found))).
Proof.
  intros H HW.
  destruct (init_inv _ _ _ _ _ _ _ _ _ H) as (ts & se & _ & Hts & Hse & _ & _ & E).
  assert (Hlen : List.length ts = List.length (rows df)).
  { rewrite (to_datetime_length _ _ _ Hts). unfold column0. apply length_map. }
  destruct (resolve_range_default strptime_opt df ts se Hlen Hse) as [[_ Hmin] [_ Hmax]].
  assert (HN : (0 <= N self)%Z) by (subst self; assumption).
  destruct (find_outliers_records self HN) as (found & Hf & Hrec).
  exists found. split; [assumption|]. intros Hne.
  assert (Hall : filter (in_range (start self) (end_ self)) (records found)
                 = records found).
  { apply forallb_filter_id. apply forallb_forall. intros r Hin.
    rewrite Hrec in Hin.
    destruct (in_outliers_of self r Hin) as (i & _ & _ & Hd & _).
    apply nth_error_In in Hd. subst self. cbn [date start end_] in *.
    rewrite Forall_forall in Hmin, Hmax.
    specialize (Hmin _ Hd). specialize (Hmax _ Hd).
    unfold in_range. apply andb_true_iff.
    rewrite Z.geb_le, Z.leb_le. lia. }
  unfold get_outliers. rewrite Hf. cbn [rbind]. rewrite Hall.
  unfold len, Py.len. destruct (records found); [congruence | reflexivity].
Qed.

Lemma default_range_keeps_all_witness :
  exists found,
    find_outliers (Sample.detector 0 2 13 3 1 20200101 20200103) = Ok found /\
    (records found <> [] ->
     get_outliers (Sample.detector 0 2 13 3 1 20200101 20200103)
     = Ok ("Failure"%string, Table (records found))).
Proof.
  apply (default_range_keeps_all Sample.parse_timestamp Sample.strptime_opt 3 1
           (Sample.january 0 2 13) (Sample.january_coerced 0 2 13)).
  - reflexivity.
  - lia.
Defined.

(** X6. What every constructed detector satisfies: its values are the
    table's value column and its dates the converted date column, one date
    per value; the series is not empty; the window is at most its length;
    and the table handed back holds exactly these dates and values. *)
Theorem constructed_detector_invariant
        (parse_timestamp : string -> option Z)
        (strptime_opt : string -> string -> option Z)
        (window_size : Z) (sg : R) (start_date end_date : option string)
        (df df' : DataFrame) (self : t) :
  __init__ parse_timestamp strptime_opt window_size sg start_date end_date df
  = (Ok self, df') ->
  data self = column1 df /\
  to_datetime parse_timestamp (column0 df) = Ok (date self) /\
  List.length (date self) = List.length (data self) /\
  data self <> [] /\
  (N self <= Py.len (data self))%Z /\
  rows df' = combine (map Timestamp (date self)) (data self).
Proof.
  intros H.
  destruct (init_inv _ _ _ _ _ _ _ _ _ H) as (ts & se & Hrows & Hts & _ & HW & -> & ->).
  cbn [data date N].
  assert (Hlen : List.length ts = List.length (column1 df)).
  { rewrite (to_datetime_length _ _ _ Hts). unfold column0, column1.
    now rewrite !length_map. }
  repeat split; trivial.
  unfold column1. destruct (rows df); [congruence | discriminate].
Qed.

Lemma constructed_detector_invariant_witness :
  [0; 2; 13]%R = column1 (Sample.january 0 2 13) /\
  to_datetime Sample.parse_timestamp (column0 (Sample.january 0 2 13))
  = Ok [20200101; 20200102; 20200103]%Z /\
  List.length [20200101; 20200102; 20200103]%Z = List.length [0; 2; 13]%R /\
  [0; 2; 13]%R <> [] /\
  (2 <= Py.len [0; 2; 13]%R)%Z /\
  rows (Sample.january_coerced 0 2 13)
  = combine (map Timestamp [20200101; 20200102; 20200103]%Z) [0; 2; 13]%R.
Proof.
  exact (constructed_detector_invariant Sample.parse_timestamp Sample.strptime_opt
           2 1 None None (Sample.january 0 2 13) (Sample.january_coerced 0 2 13)
           (Sample.detector 0 2 13 2 1 20200101 20200103) eq_refl).
Defined.

(** X7. Constructing again from the table a successful construction left
    behind succeeds with the same detector and changes the table no
    further: relabelling and date conversion are idempotent. *)
Theorem construction_idempotent_on_table
        (parse_timestamp : string -> option Z)
        (strptime_opt : string -> string -> option Z)
        (window_size : Z) (sg : R) (start_date end_date : option string)
        (df df' : DataFrame) (self : t) :
  __init__ parse_timestamp strptime_opt window_size sg start_date end_date df
  = (Ok self, df') ->
  __init__ parse_timestamp strptime_opt window_size sg start_date end_date df'
  = (Ok self, df').
Proof.
  intros H.
  destruct (init_inv _ _ _ _ _ _ _ _ _ H) as (ts & se & Hrows & Hts & Hse & HW & -> & ->).
  assert (Hlen : List.length ts = List.length (rows df)).
  { rewrite (to_datetime_length _ _ _ Hts). unfold column0. apply length_map. }
  assert (Hc0 : column0 (coerced df ts) = map Timestamp ts)
    by now apply column0_coerced.
  assert (Hc1 : column1 (coerced df ts) = column1 df)
    by now apply column1_coerced.
  assert (Hrows' : rows (coerced df ts) <> []).
  { intros E. unfold column1 in Hc1. rewrite E in Hc1. simpl in Hc1.
    destruct (rows df); [congruence | discriminate]. }
  assert (Hts' : to_datetime parse_timestamp (column0 (coerced df ts)) = Ok ts).
  { rewrite Hc0. apply to_datetime_Timestamp. }
  assert (Hfix : coerced (coerced df ts) ts = coerced df ts).
  { unfold coerced at 1. rewrite Hc1. reflexivity. }
  rewrite (init_steps _ _ _ _ _ _ (coerced df ts) ts Hrows' Hts').
  rewrite Hfix, Hse, Hc1.
  destruct (Z.gtb_spec window_size (Py.len (column1 df))); [lia | reflexivity].
Qed.

Lemma construction_idempotent_on_table_witness :
  __init__ Sample.parse_timestamp Sample.strptime_opt 3 1
           (Some "2020-01-02"%string) None (Sample.january_coerced 0 2 13)
  = (Ok (Sample.detector 0 2 13 3 1 20200102 20200103), Sample.january_coerced 0 2 13).
Proof.
  apply (construction_idempotent_on_table Sample.parse_timestamp Sample.strptime_opt
           3 1 (Some "2020-01-02"%string) None (Sample.january 0 2 13)).
  reflexivity.
Defined.

(** ** Failures of construction after the empty check *)

Lemma rmap_raises {A B : Type} (f : A -> result B) (l : list A) (a : A) (e : exn) :
  In a l -> f a = Raise e ->
  (forall x e', f x = Raise e' -> e' = e) ->
  rmap f l = Raise e.
Proof.
  intros Hin Ha Hsame. induction l as [|x l IH]; [contradiction|].
  simpl. destruct (f x) as [b|e'] eqn:Hx.
  - destruct Hin as [->|Hin]; [congruence|].
    cbn [rbind]. now rewrite (IH Hin).
  - cbn [rbind]. now rewrite (Hsame x e' Hx).
Qed.

(** X8. When one entry of the date column is a string [pd.to_datetime]
    does not accept, the constructor raises the conversion error whatever
    the other arguments are, and the caller's table is left half changed:
    its columns are relabelled, its rows are as they were. *)
Theorem unparsable_date_column
        (parse_timestamp : string -> option Z)
        (strptime_opt : string -> string -> option Z)
        (window_size : Z) (sg : R) (start_date end_date : option string)
        (df : DataFrame) (s : string) (v : R) :
  In (Str s, v) (rows df) ->
  parse_timestamp s = None ->
  __init__ parse_timestamp strptime_opt window_size sg start_date end_date df
  = (Raise (ValueError "Unknown datetime string format"),
     {| columns := ("Date", "Value")%string; rows := rows df |}).
Proof.
  intros Hin Hs.
  assert (Hrows : rows df <> []) by (intros E; rewrite E in Hin; contradiction).
  apply init_to_datetime_raises; [assumption|].
  unfold to_datetime. apply (rmap_raises (to_datetime1 parse_timestamp) _ (Str s)).
  - unfold column0. apply in_map_iff. now exists (Str s, v).
  - simpl. now rewrite Hs.
  - intros [s'|t] e'; simpl; [|discriminate].
    destruct (parse_timestamp s'); [discriminate|]. now intros E; inversion E.
Qed.

Lemma unparsable_date_column_witness :
  __init__ Sample.parse_timestamp Sample.strptime_opt 2 1 None None
           {| columns := ("day", "amount")%string;
              rows := [(Str "2020-01-01", 0%R); (Str "tomorrow", 2%R)] |}
  = (Raise (ValueError "Unknown datetime string format"),
     {| columns := ("Date", "Value")%string;
        rows := [(Str "2020-01-01", 0%R); (Str "tomorrow", 2%R)] |}).
Proof.
  apply (unparsable_date_column Sample.parse_timestamp Sample.strptime_opt 2 1 None None
           {| columns := ("day", "amount")%string;
              rows := [(Str "2020-01-01", 0%R); (Str "tomorrow", 2%R)] |}
           "tomorrow" 2).
  - right. left. reflexivity.
  - reflexivity.
Defined.

Lemma resolve_range_bad_date
      (strptime_opt : string -> string -> option Z)
      (sd ed : option string) (df : DataFrame) :
  date_ok strptime_opt sd = false \/ date_ok strptime_opt ed = false ->
  fst (resolve_range strptime_opt sd ed df)
  = Raise (ValueError "time data does not match format").
Proof.
  intros H. unfold resolve_range, Py.and_, Py.truthy, date_ok in *.
  destruct sd as [s|], ed as [e|].
  - assert (Hb : Py.is_not_None (if negb (s =? EmptyString)%string then Some e else Some s) = true)
      by now destruct (negb _).
    rewrite Hb. unfold bind, lift, ret, strptime.
    destruct (strptime_opt s _); [|reflexivity].
    destruct (strptime_opt e _); [|reflexivity].
    destruct H; discriminate.
  - destruct H as [H|H]; [|discriminate].
    destruct (strptime_opt s _) eqn:Hs; [discriminate|].
    destruct (negb (s =? EmptyString)%string).
    + change (Py.is_not_None (@None string)) with false.
      change (Py.is_not_None (Some s)) with true. cbv iota.
      unfold bind, lift, strptime. now rewrite Hs.
    + change (Py.is_not_None (Some s)) with true. cbv iota.
      unfold bind, lift, strptime. now rewrite Hs.
  - destruct H as [H|H]; [discriminate|].
    destruct (strptime_opt e _) eqn:He; [discriminate|].
    change (Py.is_not_None (@None string)) with false.
    change (Py.is_not_None (Some e)) with true. cbv iota.
    unfold bind, lift, strptime. now rewrite He.
  - destruct H; discriminate.
Qed.

(** X9. A date argument [strptime] rejects is reported before the window
    is looked at: on a non-empty table whose dates convert, the constructor
    raises [strptime]'s [ValueError] for every window, too large or not,
    and the caller's table has by then been relabelled and converted. *)
Theorem rejected_date_argument
        (parse_timestamp : string -> option Z)
        (strptime_opt : string -> string -> option Z)
        (window_size : Z) (sg : R) (start_date end_date : option string)
        (df : DataFrame) (ts : list Z) :
  rows df <> [] ->
  to_datetime parse_timestamp (column0 df) = Ok ts ->
  date_ok strptime_opt start_date = false \/ date_ok strptime_opt end_date = false ->
  __init__ parse_timestamp strptime_opt window_size sg start_date end_date df
  = (Raise (ValueError "time data does not match format"), coerced df ts).
Proof.
  intros Hrows Hts Hbad.
  rewrite (init_steps _ _ _ _ _ _ df ts Hrows Hts).
  now rewrite (resolve_range_bad_date strptime_opt start_date end_date _ Hbad).
Qed.

Lemma rejected_date_argument_witness :
  __init__ Sample.parse_timestamp Sample.strptime_opt 10 1
           (Some "01/02/2020"%string) None (Sample.january 0 2 13)
  = (Raise (ValueError "time data does not match format"),
     Sample.january_coerced 0 2 13).
Proof.
  apply (rejected_date_argument Sample.parse_timestamp Sample.strptime_opt 10 1
           (Some "01/02/2020"%string) None (Sample.january 0 2 13)
           [20200101; 20200102; 20200103]%Z).
  - discriminate.
  - reflexivity.
  - left. reflexivity.
Defined.

(** X10. The bounds are compared with the value as they come out of the
    arithmetic; nothing orders them.  At an index where the lower bound
    lies above the upper bound (what a negative sigma is there to produce)
    the value is below the one or above the other, and [find_outliers]
    returns the index whatever its value. *)
Theorem inverted_band_flags_index (self : t) (i : nat) (d : Z) (v lower upper : R) :
  (0 <= N self)%Z ->
  nth_error (date self) i = Some d ->
  nth_error (data self) i = Some v ->
  nth_error (lower_bound self) i = Some (Some lower) ->
  nth_error (upper_bound self) i = Some (Some upper) ->
  (upper < lower)%R ->
  exists found,
    find_outliers self = Ok found /\
    In (mkRecord d v (Some lower) (Some upper)) (records found).
Proof.
  intros HN Hd Hv Hlo Hup Hinv.
  assert (Hi : (i < List.length (data self))%nat).
  { apply nth_error_Some. congruence. }
  rewrite (nth_error_lower_bound self i Hi) in Hlo.
  rewrite (nth_error_upper_bound self i Hi) in Hup.
  destruct (mean_at _ _ i) as [m|] eqn:Hm; [|discriminate].
  destruct (std_at _ _ i) as [s|] eqn:Hs; [|discriminate].
  cbn in Hlo, Hup. inversion Hlo as [Elo]. inversion Hup as [Eup].
  destruct (find_outliers_records self HN) as (found & Hf & Hrec).
  exists found. split; [assumption|].
  rewrite Hrec. unfold outliers_of. apply in_flat_map. exists i. split.
  - apply in_seq. split; [lia|]. cbn [Nat.add]. assumption.
  - rewrite (classify_defined self i d v m s Hd Hv Hm Hs), Elo, Eup.
    assert (H : Rltb v lower || Rltb upper v = true).
    { apply outside_band.
      destruct (Rlt_dec v lower); [now left | right; lra]. }
    rewrite H. now left.
Qed.

Lemma inverted_band_flags_index_witness :
  exists found,
    find_outliers (Sample.detector 0 2 13 3 (-1) 20200101 20200103) = Ok found /\
    In (mkRecord 20200103 13 (Some (5 - -1 * 7)%R) (Some (5 + -1 * 7)%R))
       (records found).
Proof.
  apply (inverted_band_flags_index (Sample.detector 0 2 13 3 (-1) 20200101 20200103)
           2 20200103 13 (5 - -1 * 7) (5 + -1 * 7)).
  - cbn. lia.
  - reflexivity.
  - reflexivity.
  - rewrite (proj2 (sample_bounds (-1) 20200101 20200103)). reflexivity.
  - rewrite (proj1 (sample_bounds (-1) 20200101 20200103)). reflexivity.
  - lra.
Defined.

Lemma to_datetime_raises_ValueError
      (parse_timestamp : string -> option Z) (col : list cell) (e : exn) :
  to_datetime parse_timestamp col = Raise e -> exists msg, e = ValueError msg.
Proof.
  unfold to_datetime. induction col as [|c col IH]; simpl; [discriminate|].
  destruct c as [s|t]; simpl.
  - destruct (parse_timestamp s); simpl.
    + destruct (rmap _ col); simpl; [discriminate|].
      intros E; inversion E; subst. now apply IH.
    + intros E; inversion E. now eexists.
  - destruct (rmap _ col); simpl; [discriminate|].
    intros E; inversion E; subst. now apply IH.
Qed.

Lemma resolve_range_raises_ValueError
      (strptime_opt : string -> string -> option Z)
      (sd ed : option string) (df : DataFrame) (ts : list Z) (e : exn) :
  List.length ts = List.length (rows df) ->
  strptime_opt EmptyString "%Y-%m-%d"%string = None ->
  fst (resolve_range strptime_opt sd ed (coerced df ts)) = Raise e ->
  exists msg, e = ValueError msg.
Proof.
  intros Hlen Hempty. unfold resolve_range, Py.and_, Py.truthy.
  destruct sd as [s|], ed as [d|].
  - assert (Hb : Py.is_not_None (if negb (s =? EmptyString)%string then Some d else Some s) = true)
      by now destruct (negb _).
    rewrite Hb. unfold bind, lift, ret, strptime.
    destruct (strptime_opt s _); cbn.
    + destruct (strptime_opt d _); cbn; [discriminate|].
      intros E; inversion E. now eexists.
    + intros E; inversion E. now eexists.
  - destruct (String.eqb_spec s EmptyString) as [->|Hs].
    + change (Py.is_not_None (if negb true then None else Some EmptyString)) with true.
      cbv iota. unfold bind, lift, strptime. rewrite Hempty. cbn.
      intros E; inversion E. now eexists.
    + change (Py.is_not_None (if negb false then None else Some s)) with false.
      change (Py.is_not_None (Some s)) with true. cbv iota.
      unfold bind at 1, lift at 1, strptime.
      destruct (strptime_opt s _); [|cbn; intros E; inversion E; now eexists].
      unfold bind. rewrite (max_Date_coerced df ts Hlen).
      destruct ts as [|t ts]; cbn; [|discriminate].
      intros E; inversion E. now eexists.
  - change (Py.is_not_None (@None string)) with false.
    change (Py.is_not_None (Some d)) with true. cbv iota.
    unfold bind at 1, lift at 1, strptime.
    destruct (strptime_opt d _); [|cbn; intros E; inversion E; now eexists].
    unfold bind. rewrite (min_Date_coerced df ts Hlen).
    destruct ts as [|t ts]; cbn; [|discriminate].
    intros E; inversion E. now eexists.
  - change (Py.is_not_None (@None string)) with false. cbv iota.
    unfold bind at 1. rewrite (min_Date_coerced df ts Hlen).
    destruct ts as [|t ts]; cbn [Py.min]; [intros E; inversion E; now eexists|].
    unfold bind. rewrite (max_Date_coerced df (t :: ts) Hlen). cbn. discriminate.
Qed.

(** X14. The test [(start_date and end_date) is not None] never sends
    [None] to [strptime]: as long as [strptime] rejects the empty string,
    every exception the constructor raises is a [ValueError], never the
    [TypeError] of a missing argument. *)
Theorem constructor_raises_only_ValueError
        (parse_timestamp : string -> option Z)
        (strptime_opt : string -> string -> option Z)
        (window_size : Z) (sg : R) (start_date end_date : option string)
        (df df' : DataFrame) (e : exn) :
  strptime_opt EmptyString "%Y-%m-%d"%string = None ->
  __init__ parse_timestamp strptime_opt window_size sg start_date end_date df
  = (Raise e, df') ->
  exists msg, e = ValueError msg.
Proof.
  intros Hempty H.
  destruct (rows df) as [|r rs] eqn:Hr.
  { rewrite (init_empty _ _ _ _ _ _ df Hr) in H. inversion H. now eexists. }
  assert (Hrows : rows df <> []) by (rewrite Hr; discriminate).
  destruct (to_datetime parse_timestamp (column0 df)) as [ts|e0] eqn:Hts.
  2:{ rewrite (init_to_datetime_raises _ _ _ _ _ _ df e0 Hrows Hts) in H.
      inversion H; subst. now apply (to_datetime_raises_ValueError _ _ _ Hts). }
  assert (Hlen : List.length ts = List.length (rows df)).
  { rewrite (rmap_length _ _ _ Hts). unfold column0. apply length_map. }
  rewrite (init_steps _ _ _ _ _ _ df ts Hrows Hts) in H.
  destruct (fst (resolve_range strptime_opt start_date end_date (coerced df ts)))
    as [se|e1] eqn:Hse.
  - destruct (window_size >? Py.len (column1 df))%Z; [|discriminate].
    inversion H. now eexists.
  - inversion H; subst.
    now apply (resolve_range_raises_ValueError strptime_opt start_date end_date
                 df ts e Hlen Hempty).
Qed.

Lemma constructor_raises_only_ValueError_witness :
  exists msg, ValueError "time data does not match format" = ValueError msg.
Proof.
  apply (constructor_raises_only_ValueError Sample.parse_timestamp Sample.strptime_opt
           3 1 (Some EmptyString) None (Sample.january 0 2 13)
           (Sample.january_coerced 0 2 13)).
  - reflexivity.
  - reflexivity.
Defined.

(** ** plot_outliers *)

Lemma find_outliers_Ok_window (self : t) (found : found) :
  find_outliers self = Ok found -> (0 <= N self)%Z.
Proof.
  intros H. destruct (Z.lt_ge_cases (N self) 0) as [Hneg|Hpos]; [|assumption].
  destruct (find_outliers_negative_window self Hneg) as [E _].
  rewrite E in H. discriminate.
Qed.

Lemma find_outliers_Frame (self : t) (recs : list OutlierRecord) :
  find_outliers self = Ok (Frame recs) -> recs <> [].
Proof.
  intros H. pose proof (find_outliers_Ok_window self _ H) as HN.
  rewrite (find_outliers_nonneg self HN) in H. unfold Py.len in H.
  destruct (outliers_of self) as [|r l]; cbn in H; inversion H. discriminate.
Qed.

(** X11. When [find_outliers] finds nothing, [plot_outliers] does not
    return: it draws the data and the moving average and then raises a
    [TypeError], because it subscripts the message 'No anomalies found' as
    if it were the frame of outliers. *)
Theorem plot_outliers_without_anomalies (self : t) (fig : list Pyplot.call) :
  find_outliers self = Ok EmptyList ->
  plot_outliers self fig
  = (Raise (TypeError "string indices must be integers"), fig ++ curves self).
Proof.
  intros H. pose proof (find_outliers_Ok_window self _ H) as HN.
  unfold plot_outliers, Pyplot.bind, Pyplot.plot, Pyplot.emit, Pyplot.lift.
  rewrite (rolling_nonneg _ HN). unfold get_outliers. rewrite H. cbn.
  unfold curves. now rewrite <- app_assoc.
Qed.

Lemma plot_outliers_without_anomalies_witness :
  plot_outliers (Sample.detector 0 2 13 3 (3 / 2) 20200101 20200103) []
  = (Raise (TypeError "string indices must be integers"),
     [] ++ curves (Sample.detector 0 2 13 3 (3 / 2) 20200101 20200103)).
Proof.
  apply (plot_outliers_without_anomalies
           (Sample.detector 0 2 13 3 (3 / 2) 20200101 20200103) []).
  apply sample_find_outliers_sigma_3_2.
Defined.

(** X12. When [find_outliers] returns a frame, [plot_outliers] completes
    and adds to the figure, in this order: the data, the moving average,
    the markers of the outliers whose date lies in [start, end] (none at
    all when the range holds none of them), the legend, and [show]. *)
Theorem plot_outliers_with_anomalies
        (self : t) (recs : list OutlierRecord) (fig : list Pyplot.call) :
  find_outliers self = Ok (Frame recs) ->
  plot_outliers self fig
  = (Ok tt,
     fig ++ curves self
         ++ [markers (filter (in_range (start self) (end_ self)) recs);
             Pyplot.Legend ["Actual Data"; "Moving average"; "Outliers"]%string
                           "upper left";
             Pyplot.Show]).
Proof.
  intros H. pose proof (find_outliers_Ok_window self _ H) as HN.
  pose proof (find_outliers_Frame self recs H) as Hne.
  unfold plot_outliers, Pyplot.bind, Pyplot.plot, Pyplot.legend, Pyplot.show,
    Pyplot.emit, Pyplot.lift.
  assert (Hlen : (Py.len recs =? 0)%Z = false).
  { unfold Py.len. destruct recs; [congruence | reflexivity]. }
  rewrite (rolling_nonneg _ HN). unfold get_outliers. rewrite H.
  unfold rbind, len, records. cbv beta iota. rewrite Hlen.
  unfold snd, payload_Date, payload_Abnormal_values. cbv beta iota.
  unfold curves, markers. rewrite <- !app_assoc. reflexivity.
Qed.

Lemma plot_outliers_with_anomalies_witness :
  plot_outliers (Sample.detector 0 2 13 3 1 20200201 20200228) []
  = (Ok tt,
     [] ++ curves (Sample.detector 0 2 13 3 1 20200201 20200228)
        ++ [markers (filter (in_range 20200201 20200228)
                            [mkRecord 20200103 13 (Some (5 - 1 * 7)%R) (Some (5 + 1 * 7)%R)]);
            Pyplot.Legend ["Actual Data"; "Moving average"; "Outliers"]%string
                          "upper left";
            Pyplot.Show]).
Proof.
  apply (plot_outliers_with_anomalies
           (Sample.detector 0 2 13 3 1 20200201 20200228)
           [mkRecord 20200103 13 (Some (5 - 1 * 7)%R) (Some (5 + 1 * 7)%R)] []).
  apply sample_find_outliers_sigma_1.
Defined.
